(** * KenPom ratings plot: a shallow embedding of [kenpom_plot.py]

    The program is one linear pipeline: [fetch_kenpom_data] resolves a
    credential and issues one HTTP GET, [create_plot] classifies every team
    row against a fixed trapezoid and builds a Plotly figure, [main] chains
    the two.  Numbers that Python holds as floats are exact rationals here;
    the point-in-polygon scan is also given on doubles, with every operation
    rounded, for what depends on points next to an edge. *)

From Stdlib Require Import QArith Lqa ZArith List String Ascii Bool Lia.
From Stdlib Require Import Permutation Sorted DecimalString.
From Stdlib Require Import Qabs Qround Qpower.
Import ListNotations.

Local Open Scope Q_scope.
Local Open Scope string_scope.
Local Open Scope list_scope.

(** A point of the (tempo, efficiency margin) plane. *)
Definition point : Type := (Q * Q)%type.

(** ** The point-in-polygon primitive *)

Module Matplotlib.

(** Modelled from the spec: [MPLPath(polygon)], a path built from the
    ordered vertex list alone. *)
Record Path : Type := MPLPath { vertices : list point }.

(** Modelled from the spec: the registers of the ray-casting scan; the edge
    under test goes from [(vtx0, vty0)] to [(vtx1, vty1)]. *)
Record scan : Type := Scan {
  vtx0 : Q; vty0 : Q;
  vtx1 : Q; vty1 : Q;
  yflag0 : bool;
  subpath_flag : bool
}.

(** Modelled from the spec: the ray-casting test on the current edge.  When
    its end points lie on opposite sides of the horizontal line through the
    test point, the ray along +X hits it exactly when the multiplied-out
    comparison agrees with the side of the second end point. *)
Definition edge_flag (tx ty : Q) (s : scan) : bool :=
  let yflag1 := Qle_bool ty (vty1 s) in
  if negb (Bool.eqb (yflag0 s) yflag1) then
    if Bool.eqb (Qle_bool ((vtx1 s - tx) * (vty0 s - vty1 s))
                          ((vty1 s - ty) * (vtx0 s - vtx1 s))) yflag1
    then negb (subpath_flag s)
    else subpath_flag s
  else subpath_flag s.

(** Modelled from the spec: one turn of the scan over the ordered vertex
    list; test the current edge, then move to the next pair of vertices. *)
Definition advance (tx ty : Q) (s : scan) (xy : point) : scan :=
  {| vtx0 := vtx1 s; vty0 := vty1 s;
     vtx1 := fst xy; vty1 := snd xy;
     yflag0 := Qle_bool ty (vty1 s);
     subpath_flag := edge_flag tx ty s |}.

(** Modelled from the spec: the repository delegates the point-in-polygon
    test to [matplotlib.path.Path.contains_point], whose code is not part
    of it; the spec describes it as the standard ray-casting test over the
    polygon's ordered vertex list.  This is that test as the library runs
    it with radius 0 on a path without codes: no result for fewer than
    three vertices, one scan over the vertices with the path closed back to
    its first vertex, and a last test on the closing edge.  Arithmetic is
    exact. *)
Definition point_in_path (tx ty : Q) (vs : list point) : bool :=
  if (List.length vs <? 3)%nat then false
  else match vs with
       | [] => false
       | (sx, sy) :: rest =>
           let s0 := {| vtx0 := sx; vty0 := sy; vtx1 := sx; vty1 := sy;
                        yflag0 := Qle_bool ty sy; subpath_flag := false |} in
           edge_flag tx ty (fold_left (advance tx ty) (rest ++ [(sx, sy)]) s0)
       end.

(** Modelled from the spec: [Path.contains_point(point)] with the default
    radius and no transform. *)
Definition contains_point (path : Path) (pt : point) : bool :=
  point_in_path (fst pt) (snd pt) (vertices path).

End Matplotlib.

(** [point_in_polygon(point, polygon)] *)
Definition point_in_polygon (pt : point) (polygon : list point) : bool :=
  let path := Matplotlib.MPLPath polygon in
  Matplotlib.contains_point path pt.

(** The trapezoid of [create_plot]: bottom left, bottom right, top right,
    top left. *)
Definition trapezoid_points : list point :=
  [ (64.5, 20); (70.2, 20); (72, 40); (62.5, 40) ].

(** ** Notions the geometric claims speak of *)

Module Geometry.

(** [p] lies strictly outside the axis-parallel bounding box of [vs]: it is
    strictly beyond every vertex in one of the four directions. *)
Definition left_of (p : point) (vs : list point) : Prop :=
  Forall (fun v => fst p < fst v) vs.
Definition right_of (p : point) (vs : list point) : Prop :=
  Forall (fun v => fst v < fst p) vs.
Definition below (p : point) (vs : list point) : Prop :=
  Forall (fun v => snd p < snd v) vs.
Definition above (p : point) (vs : list point) : Prop :=
  Forall (fun v => snd v < snd p) vs.

Definition outside_bounding_box (p : point) (vs : list point) : Prop :=
  left_of p vs \/ right_of p vs \/ below p vs \/ above p vs.

(** Edges of the closed polygon, in traversal order. *)
Fixpoint adjacent (vs : list point) : list (point * point) :=
  match vs with
  | a :: (b :: _) as tl => (a, b) :: adjacent tl
  | _ => []
  end.

Definition closed_edges (vs : list point) : list (point * point) :=
  match vs with
  | [] => []
  | v :: _ => adjacent (vs ++ [v])
  end.

(** Twice the signed area of the triangle (a, b, p). *)
Definition cross (a b p : point) : Q :=
  (fst b - fst a) * (snd p - snd a) - (snd b - snd a) * (fst p - fst a).

Definition between (u v w : Q) : bool :=
  (Qle_bool u w && Qle_bool w v) || (Qle_bool v w && Qle_bool w u).

(** [p] lies on the segment from [a] to [b], end points included. *)
Definition on_segment (p : point) (e : point * point) : bool :=
  let (a, b) := e in
  Qeq_bool (cross a b p) 0
  && between (fst a) (fst b) (fst p)
  && between (snd a) (snd b) (snd p).

Definition on_boundary (p : point) (vs : list point) : bool :=
  existsb (on_segment p) (closed_edges vs).

(** Vertex average of a polygon. *)
Definition vertex_mean (vs : list point) : point :=
  let n := inject_Z (Z.of_nat (List.length vs)) in
  (fold_right (fun v acc => fst v + acc) 0 vs / n,
   fold_right (fun v acc => snd v + acc) 0 vs / n).

(** Area centroid of a closed polygon by the shoelace sums. *)
Definition shoelace (e : point * point) : Q :=
  let (a, b) := e in fst a * snd b - fst b * snd a.

Definition centroid (vs : list point) : point :=
  let es := closed_edges vs in
  let a6 := 3 * fold_right (fun e acc => shoelace e + acc) 0 es in
  (fold_right (fun e acc => (fst (fst e) + fst (snd e)) * shoelace e + acc) 0 es / a6,
   fold_right (fun e acc => (snd (fst e) + snd (snd e)) * shoelace e + acc) 0 es / a6).

End Geometry.

(** ** Strings, paths *)

Infix "^^" := String.append (at level 60, right associativity).

Module Str.

Definition nl : string := String (ascii_of_nat 10) EmptyString.

(** [str(n)] for a Python integer. *)
Definition of_Z (z : Z) : string := NilZero.string_of_int (Z.to_int z).

Definition of_nat (n : nat) : string := NilZero.string_of_uint (Nat.to_uint n).

(** [needle in hay] *)
Definition contains (needle hay : string) : bool :=
  match String.index 0 needle hay with Some _ => true | None => false end.

End Str.

(** [os.path] on POSIX. *)
Module os_path.

Definition is_sep (c : ascii) : bool := Ascii.eqb c "/"%char.

Fixpoint lstrip_sep (l : list ascii) : list ascii :=
  match l with
  | c :: l' => if is_sep c then lstrip_sep l' else l
  | [] => []
  end.

Fixpoint lstrip_name (l : list ascii) : list ascii :=
  match l with
  | c :: l' => if is_sep c then l else lstrip_name l'
  | [] => []
  end.

Definition endswith_sep (a : string) : bool :=
  match rev (list_ascii_of_string a) with
  | c :: _ => is_sep c
  | [] => false
  end.

(** [os.path.join(a, b)] *)
Definition join (a b : string) : string :=
  if String.prefix "/" b then b
  else if String.eqb a "" || endswith_sep a then a ^^ b
  else a ^^ "/" ^^ b.

(** [os.path.dirname(p)]: everything up to and including the last
    separator, with trailing separators dropped unless nothing else is
    left. *)
Definition dirname (p : string) : string :=
  let head := lstrip_name (rev (list_ascii_of_string p)) in
  if forallb is_sep head then string_of_list_ascii (rev head)
  else string_of_list_ascii (rev (lstrip_sep head)).

End os_path.

(** ** Data model *)

(** One row of the ratings table; only the three columns the program reads. *)
Record TeamRating : Type := {
  TeamName : string;
  AdjTempo : Q;
  AdjEM : Q
}.

(** [pd.DataFrame(data)] built from a JSON array: rows in order, indexed
    0, 1, 2, ... *)
Definition DataFrame : Type := list TeamRating.

Definition iterrows (df : DataFrame) : list (nat * TeamRating) :=
  combine (seq 0 (List.length df)) df.

(** [df.loc[idx]] *)
Definition loc (df : DataFrame) (idx : nat) : option TeamRating :=
  nth_error df idx.

(** The dictionaries [{'x': ..., 'y': ..., 'name': ...}] collected per row. *)
Module Dict.
Record t : Type := make { x : Q; y : Q; name : string }.
End Dict.

(** Plotly figures, as far as [create_plot] fills them in. *)
Module go.

Record Line : Type := { line_color : string; line_width : Q }.

Record Marker : Type := {
  size : Z;
  color : string;
  symbol : string;
  opacity : Q;
  marker_line : Line
}.

Record Scatter : Type := {
  x : list Q;
  y : list Q;
  mode : string;
  name : string;
  showlegend : bool;
  fill : option string;
  fillcolor : option string;
  line : option Line;
  marker : option Marker;
  text : option (list string);
  hovertemplate : option string;
  hoverinfo : option string
}.

Record Font : Type := {
  font_size : Z;
  font_color : string;
  family : option string
}.

Record Title : Type := {
  title_text : string;
  title_font : Font;
  title_x : option Q
}.

Record Axis : Type := {
  axis_title : Title;
  tickfont : Font;
  gridcolor : string;
  gridwidth : Z;
  showgrid : bool;
  zeroline : bool
}.

Record Legend : Type := {
  legend_x : Q;
  legend_y : Q;
  bgcolor : string;
  bordercolor : string;
  borderwidth : Z;
  legend_font : Font
}.

Record Layout : Type := {
  title : Title;
  xaxis : Axis;
  yaxis : Axis;
  plot_bgcolor : string;
  paper_bgcolor : string;
  width : Z;
  height : Z;
  legend : Legend;
  hovermode : string
}.

Record Figure : Type := {
  data : list Scatter;
  layout : option Layout
}.

(** [go.Figure()] *)
Definition empty : Figure := {| data := []; layout := None |}.

Definition add_trace (fig : Figure) (trace : Scatter) : Figure :=
  {| data := data fig ++ [trace]; layout := layout fig |}.

Definition update_layout (fig : Figure) (l : Layout) : Figure :=
  {| data := data fig; layout := Some l |}.

End go.


(** ** Effects

    The program talks to the environment, an orchestration variable store,
    the network and the file system.  What those answer is fixed by a
    [World]; a run returns the events it caused, oldest first, and either a
    value or the exception it raised. *)

(** [requests.Response], as far as the program looks at it: the status and
    what [response.json()] gives, a table or a decoding error. *)
Record Response : Type := {
  status_code : Z;
  reason : string;
  url : string;
  json : string + DataFrame
}.

(** Python exceptions below [Exception]. *)
Inductive exception : Type :=
| ValueError (msg : string)
| KeyError (msg : string)
| HTTPError (msg : string) (response : Response)
| OtherError (kind msg : string).

(** [str(e)] *)
Definition str (e : exception) : string :=
  match e with
  | ValueError msg | KeyError msg | HTTPError msg _ | OtherError _ msg => msg
  end.

Inductive level : Type := INFO | WARNING | ERROR.

(** The log lines of the program, one constructor per format string; the
    numbers of a line are kept as numbers. *)
Inductive message : Type :=
| Fetching (year : option Z)
| Fetched (teams : nat)
| PlotSaved (path : string)
| PngSaved (path : string)
| PngNotSaved (why : string)
| HtmlSavedNote
| TeamsInside (count : nat)
| HighlightedTeams
| Highlighted (team : string) (tempo em : Q)
| Completed
| ErrorInMain (why : string).

Inductive event : Type :=
| Log (lvl : level) (msg : message)
| Makedirs (path : string)
| HttpGet (address : string) (headers : list (string * string))
| WriteHtml (path : string) (fig : go.Figure)
| WriteImage (path : string) (fig : go.Figure) (width height : Z).

(** The orchestration variable store as seen from the script. *)
Inductive airflow_state : Type :=
| NotInstalled
| Unreachable (e : exception)
| Variables (get : string -> option string).

Record World : Type := {
  process_environ : string -> option string;
  dotenv_file : string -> option string;
  airflow : airflow_state;
  requests_get : string -> list (string * string) -> exception + Response;
  os_makedirs : string -> option exception;
  write_html : go.Figure -> string -> option exception;
  write_image : go.Figure -> string -> option exception;
  strftime_now : string -> string
}.

Definition IO (A : Type) : Type := (list event * (exception + A))%type.

Definition ret {A} (a : A) : IO A := ([], inr a).

Definition raise {A} (e : exception) : IO A := ([], inl e).

Definition bind {A B} (m : IO A) (k : A -> IO B) : IO B :=
  match m with
  | (tr, inl e) => (tr, inl e)
  | (tr, inr a) => let (tr', r) := k a in (tr ++ tr', r)
  end.

(** [try: m except Exception as e: handler e] *)
Definition try_except {A} (m : IO A) (handler : exception -> IO A) : IO A :=
  match m with
  | (tr, inl e) => let (tr', r) := handler e in (tr ++ tr', r)
  | (tr, inr a) => (tr, inr a)
  end.

Definition emit (ev : event) : IO unit := ([ev], inr tt).

(** An environment call: the event, then the outcome the world fixes. *)
Definition perform (ev : event) (outcome : option exception) : IO unit :=
  ([ev], match outcome with Some e => inl e | None => inr tt end).

Definition logger (lvl : level) (msg : message) : IO unit := emit (Log lvl msg).

Notation "x <- m ;; k" := (bind m (fun x => k))
  (at level 61, m at next level, right associativity).
Notation "m ;; k" := (bind m (fun _ => k))
  (at level 61, right associativity).

Fixpoint for_each {A} (l : list A) (body : A -> IO unit) : IO unit :=
  match l with
  | [] => ret tt
  | a :: l' => body a ;; for_each l' body
  end.

(** The events of a run and its outcome. *)
Definition trace {A} (m : IO A) : list event := fst m.
Definition outcome {A} (m : IO A) : exception + A := snd m.

(** ** Data acquisition *)

(** [load_dotenv()] at import time: the local file fills in what the process
    environment does not set. *)
Definition os_getenv (w : World) (key : string) : option string :=
  match process_environ w key with
  | Some v => Some v
  | None => dotenv_file w key
  end.

(** Truth value of an optional string: [None] and the empty string are
    false. *)
Definition truthy (v : option string) : bool :=
  match v with
  | Some s => negb (String.eqb s "")
  | None => false
  end.

Definition BASE_URL : string := "https://kenpom.com/api.php".

Definition missing_key_message : string :=
  "KENPOM_API_KEY not found. Please set it as:" ^^ Str.nl ^^
  "1. Environment variable: KENPOM_API_KEY" ^^ Str.nl ^^
  "2. Airflow Variable: Admin → Variables → Add 'KENPOM_API_KEY'" ^^ Str.nl ^^
  "3. Or in .env file (for local development)".

(** [Variable.get(key, default_var=None)] inside the [try]: when the import
    or the lookup raises the value found so far stays. *)
Definition airflow_variable (w : World) (key : string)
    (so_far : option string) : option string :=
  match airflow w with
  | Variables get => get key
  | NotInstalled | Unreachable _ => so_far
  end.

(** The credential after both lookups. *)
Definition resolve_api_key (w : World) : option string :=
  let API_KEY := os_getenv w "KENPOM_API_KEY" in
  if negb (truthy API_KEY) then airflow_variable w "KENPOM_API_KEY" API_KEY
  else API_KEY.

(** [f"{v}"] for a string that may be [None]. *)
Definition format_str (v : option string) : string :=
  match v with
  | Some s => s
  | None => "None"
  end.

(** [f"{year}"] for a year that may be [None]. *)
Definition format_year (year : option Z) : string :=
  match year with
  | Some y => Str.of_Z y
  | None => "None"
  end.

(** Modelled from the spec: [Response.raise_for_status] belongs to the
    requests library, not to the repository.  On a non-success status it
    fails with an HTTP error that carries the status and the response body;
    the library counts the client and server error classes, 400 to 599, as
    such. *)
Definition raise_for_status (r : Response) : IO unit :=
  if (400 <=? status_code r)%Z && (status_code r <? 500)%Z then
    raise (HTTPError (Str.of_Z (status_code r) ^^ " Client Error: "
                        ^^ reason r ^^ " for url: " ^^ url r) r)
  else if (500 <=? status_code r)%Z && (status_code r <? 600)%Z then
    raise (HTTPError (Str.of_Z (status_code r) ^^ " Server Error: "
                        ^^ reason r ^^ " for url: " ^^ url r) r)
  else ret tt.

Definition response_json (r : Response) : IO DataFrame :=
  match json r with
  | inl why => raise (OtherError "JSONDecodeError" why)
  | inr rows => ret rows
  end.

Definition http_get (w : World) (address : string)
    (headers : list (string * string)) : IO Response :=
  match requests_get w address headers with
  | inl e => ([HttpGet address headers], inl e)
  | inr r => ([HttpGet address headers], inr r)
  end.

(** The one request of the program: its address and its headers. *)
Definition ratings_url (year : option Z) : string :=
  BASE_URL ^^ "?endpoint=ratings&y=" ^^ format_year year.

Definition bearer (API_KEY : option string) : list (string * string) :=
  [("Authorization", "Bearer " ^^ format_str API_KEY)].

Definition fetch_kenpom_data (w : World) (year : option Z) : IO DataFrame :=
  let API_KEY := resolve_api_key w in
  if negb (truthy API_KEY) then raise (ValueError missing_key_message)
  else
    let headers := bearer API_KEY in
    logger INFO (Fetching year) ;;
    response <- http_get w (ratings_url year) headers ;;
    raise_for_status response ;;
    data <- response_json response ;;
    let df : DataFrame := data in
    logger INFO (Fetched (List.length df)) ;;
    ret df.

(** ** Classification and rendering *)

Record buckets : Type := {
  inside_trapezoid : list nat;
  outside_trapezoid : list nat;
  inside_data : list Dict.t;
  outside_data : list Dict.t
}.

Definition no_buckets : buckets :=
  {| inside_trapezoid := []; outside_trapezoid := [];
     inside_data := []; outside_data := [] |}.

Definition row_point (row : TeamRating) : point := (AdjTempo row, AdjEM row).

Definition row_dict (row : TeamRating) : Dict.t :=
  {| Dict.x := AdjTempo row; Dict.y := AdjEM row; Dict.name := TeamName row |}.

(** The body of the loop over [df.iterrows()]. *)
Definition classify_row (polygon : list point) (acc : buckets)
    (ir : nat * TeamRating) : buckets :=
  let (idx, row) := ir in
  let pt := row_point row in
  if point_in_polygon pt polygon then
    {| inside_trapezoid := inside_trapezoid acc ++ [idx];
       outside_trapezoid := outside_trapezoid acc;
       inside_data := inside_data acc ++ [row_dict row];
       outside_data := outside_data acc |}
  else
    {| inside_trapezoid := inside_trapezoid acc;
       outside_trapezoid := outside_trapezoid acc ++ [idx];
       inside_data := inside_data acc;
       outside_data := outside_data acc ++ [row_dict row] |}.

Definition classify (polygon : list point) (df : DataFrame) : buckets :=
  fold_left (classify_row polygon) (iterrows df) no_buckets.

(** [if year: ... else: ...]: a year of 0 counts as no year. *)
Definition date_str (w : World) (year : option Z) : string :=
  match year with
  | Some y =>
      if (y =? 0)%Z then strftime_now w "%B %d, %Y"
      else Str.of_Z y ^^ "-" ^^ Str.of_Z (y + 1) ^^ " Season"
  | None => strftime_now w "%B %d, %Y"
  end.

Definition trapezoid_x : list Q := [64.5; 70.2; 72; 62.5; 64.5].
Definition trapezoid_y : list Q := [20; 20; 40; 40; 20].

Definition trapezoid_trace : go.Scatter :=
  {| go.x := trapezoid_x;
     go.y := trapezoid_y;
     go.fill := Some "toself";
     go.fillcolor := Some "rgba(0,0,0,0.1)";
     go.line := Some {| go.line_color := "black"; go.line_width := 3 |};
     go.mode := "lines";
     go.name := "Highlighted Zone (Trapezoid)";
     go.showlegend := true;
     go.hoverinfo := Some "skip";
     go.marker := None;
     go.text := None;
     go.hovertemplate := None |}.

Definition hover : string :=
  "<b>%{text}</b><br>" ^^ "Tempo: %{x:.1f}<br>" ^^ "AdjEM: %{y:.1f}<extra></extra>".

Definition outside_trace (outside_data : list Dict.t) : go.Scatter :=
  {| go.x := map Dict.x outside_data;
     go.y := map Dict.y outside_data;
     go.mode := "markers";
     go.marker := Some {| go.size := 6; go.color := "blue"; go.symbol := "circle";
                          go.opacity := 0.6;
                          go.marker_line := {| go.line_color := "#009CDE";
                                               go.line_width := 0.5 |} |};
     go.text := Some (map Dict.name outside_data);
     go.hovertemplate := Some hover;
     go.name := "Outside Trapezoid";
     go.showlegend := true;
     go.fill := None; go.fillcolor := None; go.line := None;
     go.hoverinfo := None |}.

Definition inside_trace (inside_data : list Dict.t) : go.Scatter :=
  {| go.x := map Dict.x inside_data;
     go.y := map Dict.y inside_data;
     go.mode := "markers";
     go.marker := Some {| go.size := 10; go.color := "gold"; go.symbol := "star";
                          go.opacity := 0.9;
                          go.marker_line := {| go.line_color := "orange";
                                               go.line_width := 1 |} |};
     go.text := Some (map Dict.name inside_data);
     go.hovertemplate := Some hover;
     go.name := "Inside Trapezoid";
     go.showlegend := true;
     go.fill := None; go.fillcolor := None; go.line := None;
     go.hoverinfo := None |}.

Definition axis (label : string) : go.Axis :=
  {| go.axis_title :=
       {| go.title_text := label;
          go.title_font := {| go.font_size := 16; go.font_color := "black";
                              go.family := Some "Arial Black" |};
          go.title_x := None |};
     go.tickfont := {| go.font_size := 12; go.font_color := "black";
                       go.family := None |};
     go.gridcolor := "rgba(0,0,0,0.1)";
     go.gridwidth := 1;
     go.showgrid := true;
     go.zeroline := false |}.

Definition title_text (date_str : string) : string :=
  "ROAD TO INDIANAPOLIS" ^^ Str.nl ^^ "Trapezoid of Excellence" ^^ Str.nl ^^ date_str.

Definition plot_layout (date_str : string) : go.Layout :=
  {| go.title :=
       {| go.title_text := title_text date_str;
          go.title_font := {| go.font_size := 20; go.font_color := "#009CDE";
                              go.family := Some "Arial Black" |};
          go.title_x := Some 0.5 |};
     go.xaxis := axis "Adjusted Tempo";
     go.yaxis := axis "Adjusted Efficiency Margin";
     go.plot_bgcolor := "white";
     go.paper_bgcolor := "white";
     go.width := 1200;
     go.height := 800;
     go.legend := {| go.legend_x := 1.02; go.legend_y := 1;
                     go.bgcolor := "white"; go.bordercolor := "black";
                     go.borderwidth := 2;
                     go.legend_font := {| go.font_size := 12;
                                          go.font_color := "black";
                                          go.family := Some "Arial" |} |};
     go.hovermode := "closest" |}.

(** Truth value of a list. *)
Definition nonempty {A} (l : list A) : bool :=
  match l with [] => false | _ :: _ => true end.

(** The figure of [create_plot], from [go.Figure()] to [update_layout]. *)
Definition plot_figure (w : World) (df : DataFrame) (year : option Z) : go.Figure :=
  let date_str := date_str w year in
  let b := classify trapezoid_points df in
  let fig := go.empty in
  let fig := go.add_trace fig trapezoid_trace in
  let fig := if nonempty (outside_data b)
             then go.add_trace fig (outside_trace (outside_data b)) else fig in
  let fig := if nonempty (inside_data b)
             then go.add_trace fig (inside_trace (inside_data b)) else fig in
  go.update_layout fig (plot_layout date_str).

Definition df_loc (df : DataFrame) (idx : nat) : IO TeamRating :=
  match loc df idx with
  | Some row => ret row
  | None => raise (KeyError (Str.of_nat idx))
  end.

(** Where the static image goes: next to the interactive document. *)
Definition png_path (output_path : string) : string :=
  let output_dir :=
    if negb (String.eqb (os_path.dirname output_path) "")
    then os_path.dirname output_path else "." in
  os_path.join output_dir "kenpom_ratings.png".

Definition create_plot (w : World) (df : DataFrame) (output_path : string)
    (year : option Z) : IO string :=
  let b := classify trapezoid_points df in
  let fig := plot_figure w df year in
  let png_path := png_path output_path in
  perform (WriteHtml output_path fig) (write_html w fig output_path) ;;
  logger INFO (PlotSaved output_path) ;;
  try_except
    (perform (WriteImage png_path fig 1200 800) (write_image w fig png_path) ;;
     logger INFO (PngSaved png_path))
    (fun e =>
       logger WARNING (PngNotSaved (str e)) ;;
       logger INFO HtmlSavedNote) ;;
  logger INFO (TeamsInside (List.length (inside_trapezoid b))) ;;
  (if nonempty (inside_trapezoid b) then
     logger INFO HighlightedTeams ;;
     for_each (inside_trapezoid b) (fun idx =>
       row <- df_loc df idx ;;
       logger INFO (Highlighted (TeamName row) (AdjTempo row) (AdjEM row)))
   else ret tt) ;;
  ret output_path.

(** ** Entry point *)

Definition main (w : World) (year : option Z) (output_dir : string) : IO string :=
  try_except
    (perform (Makedirs output_dir) (os_makedirs w output_dir) ;;
     let timestamp := strftime_now w "%Y%m%d_%H%M%S" in
     let output_path := os_path.join output_dir "kenpom_ratings.html" in
     df <- fetch_kenpom_data w year ;;
     create_plot w df output_path year ;;
     logger INFO Completed ;;
     ret output_path)
    (fun e =>
       logger ERROR (ErrorInMain (str e)) ;;
       raise e).

(** ** Vocabulary of the proofs *)

(** What the claims say about a run is read off its events. *)
Definition is_request (ev : event) : bool :=
  match ev with HttpGet _ _ => true | _ => false end.

Definition is_artifact (ev : event) : bool :=
  match ev with WriteHtml _ _ | WriteImage _ _ _ _ => true | _ => false end.

Definition none_of (f : event -> bool) (tr : list event) : bool :=
  forallb (fun ev => negb (f ev)) tr.

(** The rows a bucket keeps, as a test on the enumerated rows. *)
Definition is_inside (polygon : list point) (ir : nat * TeamRating) : bool :=
  point_in_polygon (row_point (snd ir)) polygon.

Definition is_outside (polygon : list point) (ir : nat * TeamRating) : bool :=
  negb (is_inside polygon ir).

Definition in_trapezoid (row : TeamRating) : bool :=
  point_in_polygon (row_point row) trapezoid_points.

(** The crossings scan, edge by edge. *)
Module Crossings.

Definition yflag (ty : Q) (v : point) : bool := Qle_bool ty (snd v).

(** Does the edge [e] flip the inside flag of the test point [p]? *)
Definition toggles (p : point) (e : point * point) : bool :=
  let (a, b) := e in
  negb (Bool.eqb (yflag (snd p) a) (yflag (snd p) b))
  && Bool.eqb (Qle_bool ((fst b - fst p) * (snd a - snd b))
                        ((snd b - snd p) * (fst a - fst b)))
              (yflag (snd p) b).

Definition parity (p : point) (es : list (point * point)) : bool :=
  fold_right (fun e acc => xorb (toggles p e) acc) false es.

Definition synced (ty : Q) (s : Matplotlib.scan) : Prop :=
  Matplotlib.yflag0 s = Qle_bool ty (Matplotlib.vty0 s).

Definition flip (e : point * point) : point * point := (snd e, fst e).

End Crossings.

(** Concrete inputs. *)
Module Sample.

Definition rows : DataFrame :=
  [ {| TeamName := "Centre"; AdjTempo := 67.3; AdjEM := 30 |};
    {| TeamName := "Slow"; AdjTempo := 50; AdjEM := 5 |};
    {| TeamName := "Fast"; AdjTempo := 80; AdjEM := 35 |} ].

Definition ok_response (address : string) : Response :=
  {| status_code := 200; reason := "OK"; url := address; json := inr rows |}.

Definition error_response (address : string) : Response :=
  {| status_code := 500; reason := "Internal Server Error"; url := address;
     json := inl "Expecting value" |}.

Definition key_in_environ (key : string) : option string :=
  if String.eqb key "KENPOM_API_KEY" then Some "secret" else None.

Definition nothing (key : string) : option string := None.

(** Credential set, upstream answers 200, the image export fails. *)
Definition world : World :=
  {| process_environ := key_in_environ;
     dotenv_file := nothing;
     airflow := NotInstalled;
     requests_get := fun address _ => inr (ok_response address);
     os_makedirs := fun _ => None;
     write_html := fun _ _ => None;
     write_image := fun _ _ => Some (OtherError "RuntimeError" "Chrome not found");
     strftime_now := fun _ => "November 04, 2026" |}.

(** No credential anywhere. *)
Definition world_without_key : World :=
  {| process_environ := nothing;
     dotenv_file := nothing;
     airflow := Variables nothing;
     requests_get := fun address _ => inr (ok_response address);
     os_makedirs := fun _ => None;
     write_html := fun _ _ => None;
     write_image := fun _ _ => None;
     strftime_now := fun _ => "November 04, 2026" |}.

(** Credential set, upstream answers 500. *)
Definition world_upstream_down : World :=
  {| process_environ := key_in_environ;
     dotenv_file := nothing;
     airflow := NotInstalled;
     requests_get := fun address _ => inr (error_response address);
     os_makedirs := fun _ => None;
     write_html := fun _ _ => None;
     write_image := fun _ _ => None;
     strftime_now := fun _ => "November 04, 2026" |}.

Definition square : list point := [ (0, 0); (2, 0); (2, 2); (0, 2) ].

End Sample.

(** Pieces of the program the statements name. *)

(** A trace that is only added for a non-empty collection. *)
Definition optional {A} (present : bool) (a : A) : list A :=
  if present then [a] else [].

(** The season label in the words of the spec: "{year}-{year+1} Season". *)
Definition season_label (y : Z) : string :=
  Str.of_Z y ^^ "-" ^^ Str.of_Z (y + 1) ^^ " Season".

(** The text of the title of a figure, if its layout is set. *)
Definition chart_title (fig : go.Figure) : option string :=
  option_map (fun l => go.title_text (go.title l)) (go.layout fig).

(** The two closing blocks of [create_plot]: the guarded image export and the
    summary. *)
Definition save_png (w : World) (fig : go.Figure) (png_path : string) : IO unit :=
  try_except
    (perform (WriteImage png_path fig 1200 800) (write_image w fig png_path) ;;
     logger INFO (PngSaved png_path))
    (fun e =>
       logger WARNING (PngNotSaved (str e)) ;;
       logger INFO HtmlSavedNote).

(** The summary block that closes [create_plot]. *)
Definition summary (df : DataFrame) (b : buckets) : IO unit :=
  logger INFO (TeamsInside (List.length (inside_trapezoid b))) ;;
  (if nonempty (inside_trapezoid b) then
     logger INFO HighlightedTeams ;;
     for_each (inside_trapezoid b) (fun idx =>
       row <- df_loc df idx ;;
       logger INFO (Highlighted (TeamName row) (AdjTempo row) (AdjEM row)))
   else ret tt).

(** The message of the HTTP error raised for an error status. *)
Definition status_error (r : Response) : string :=
  Str.of_Z (status_code r)
  ^^ (if (status_code r <? 500)%Z then " Client Error: " else " Server Error: ")
  ^^ reason r ^^ " for url: " ^^ url r.

(** ** The scheduled task ([dags/kenpom_plot_dag.py]) *)

Module Dag.

(** A [datetime], as far as the task reads it. *)
Record datetime : Type := { year : Z }.

(** The Airflow context; a key that is not there reads as [None]. *)
Record context : Type := {
  execution_date : option datetime;
  data_interval_start : option datetime
}.

(** [a or b] on two optional dates: a date is always true. *)
Definition or_else (a b : option datetime) : option datetime :=
  match a with
  | Some d => Some d
  | None => b
  end.

(** [execution_date.year if execution_date else 2026] *)
Definition fallback_year (execution_date : option datetime) : Z :=
  match execution_date with
  | Some d => year d
  | None => 2026
  end.

Section Task.

(** [int(s)] on a string: [None] when it raises [ValueError]. *)
Variable int : string -> option Z.

(** The [try] block that settles the year.  The import of [Variable] stands
    before the [try]; inside it a failing lookup and a failing [int] both end
    in the [except] branch. *)
Definition resolve_year (w : World) (execution_date : option datetime) : IO Z :=
  match airflow w with
  | NotInstalled =>
      raise (OtherError "ModuleNotFoundError" "No module named 'airflow'")
  | Unreachable _ => ret (fallback_year execution_date)
  | Variables get =>
      let year_var := get "KENPOM_YEAR" in
      if truthy year_var then
        match int (format_str year_var) with
        | Some y => ret y
        | None => ret (fallback_year execution_date)
        end
      else ret (fallback_year execution_date)
  end.

(** [run_kenpom_plot], called with the Airflow context; [file] is
    [__file__]. *)
Definition run_kenpom_plot (w : World) (file : string) (ctx : context) : IO string :=
  let execution_date := or_else (execution_date ctx) (data_interval_start ctx) in
  year <- resolve_year w execution_date ;;
  let output_dir := os_path.join (os_path.dirname file) "output" in
  perform (Makedirs output_dir) (os_makedirs w output_dir) ;;
  output_path <- main w (Some year) output_dir ;;
  ret output_path.

End Task.

End Dag.

(** ** More vocabulary *)

(** The same world with another state of the variable store. *)
Definition with_airflow (w : World) (a : airflow_state) : World :=
  {| process_environ := process_environ w;
     dotenv_file := dotenv_file w;
     airflow := a;
     requests_get := requests_get w;
     os_makedirs := os_makedirs w;
     write_html := write_html w;
     write_image := write_image w;
     strftime_now := strftime_now w |}.

(** The summary line of one team. *)
Definition highlighted (row : TeamRating) : event :=
  Log INFO (Highlighted (TeamName row) (AdjTempo row) (AdjEM row)).

Definition is_highlighted (ev : event) : bool :=
  match ev with Log _ (Highlighted _ _ _) => true | _ => false end.

(** Number of points drawn by the marker traces of a figure. *)
Definition marker_points (fig : go.Figure) : nat :=
  fold_right (fun t acc =>
                if String.eqb (go.mode t) "markers"
                then (List.length (go.x t) + acc)%nat else acc)
             0%nat (go.data fig).

(** No separator in a file name. *)
Definition plain_name (f : string) : bool :=
  forallb (fun c => negb (os_path.is_sep c)) (list_ascii_of_string f).

(** More concrete inputs. *)
Module Sample2.

(** A decimal reader standing in for [int]. *)
Definition decimal (s : string) : option Z :=
  option_map Z.of_int (NilZero.int_of_string s).

Definition store (key : string) : option string :=
  if String.eqb key "KENPOM_API_KEY" then Some "from-airflow"
  else if String.eqb key "KENPOM_YEAR" then Some "2024"
  else None.

Definition bad_year_store (key : string) : option string :=
  if String.eqb key "KENPOM_YEAR" then Some "next" else None.

(** A world of the scheduler: credential and year in the variable store. *)
Definition scheduled : World := with_airflow Sample.world_without_key (Variables store).

Definition ctx : Dag.context :=
  {| Dag.execution_date := None;
     Dag.data_interval_start := Some {| Dag.year := 2027 |} |}.

(** The HTML write fails. *)
Definition world_readonly : World :=
  {| process_environ := Sample.key_in_environ;
     dotenv_file := Sample.nothing;
     airflow := NotInstalled;
     requests_get := fun address _ => inr (Sample.ok_response address);
     os_makedirs := fun _ => None;
     write_html := fun _ _ => Some (OtherError "PermissionError" "Permission denied");
     write_image := fun _ _ => None;
     strftime_now := fun _ => "November 04, 2026" |}.

(** The network is down. *)
Definition world_offline : World :=
  {| process_environ := Sample.key_in_environ;
     dotenv_file := Sample.nothing;
     airflow := NotInstalled;
     requests_get := fun _ _ => inl (OtherError "ConnectionError" "Max retries exceeded");
     os_makedirs := fun _ => None;
     write_html := fun _ _ => None;
     write_image := fun _ _ => None;
     strftime_now := fun _ => "November 04, 2026" |}.

(** The output directory cannot be made. *)
Definition world_no_disk : World :=
  {| process_environ := Sample.key_in_environ;
     dotenv_file := Sample.nothing;
     airflow := NotInstalled;
     requests_get := fun address _ => inr (Sample.ok_response address);
     os_makedirs := fun _ => Some (OtherError "OSError" "No space left on device");
     write_html := fun _ _ => None;
     write_image := fun _ _ => None;
     strftime_now := fun _ => "November 04, 2026" |}.

End Sample2.

(** [main()] with its defaults, as the module calls it when run as a
    script. *)
Definition script (w : World) : IO string := main w None "output".

(** The task once the year is settled. *)
Definition run_with_year (w : World) (file : string) (y : Z) : IO string :=
  let output_dir := os_path.join (os_path.dirname file) "output" in
  perform (Makedirs output_dir) (os_makedirs w output_dir) ;;
  output_path <- main w (Some y) output_dir ;;
  ret output_path.

(** The year the task falls back on: of the execution date, else of the
    start of the data interval, else 2026. *)
Definition task_year (ctx : Dag.context) : Z :=
  match Dag.execution_date ctx with
  | Some d => Dag.year d
  | None =>
      match Dag.data_interval_start ctx with
      | Some d => Dag.year d
      | None => 2026%Z
      end
  end.


(** ** The point-in-polygon primitive on doubles

    The library holds coordinates as IEEE binary64 numbers and rounds every
    subtraction and every product of the edge test.  Near an edge the rounded
    test can come out differently from the exact one, so what depends on
    points near edges is stated on this scan. *)

Module Binary64.

(** Half the distance between 1 and the next double: the relative error of
    one rounding. *)
Definition unit_roundoff : Q := 1 # 9007199254740992.

(** The exponent of the leading bit of a positive rational. *)
Definition floor_log2 (x : Q) : Z :=
  let e0 := (Z.log2 (Qnum x) - Z.log2 (Zpos (Qden x)))%Z in
  if Qle_bool (2 ^ e0) x then e0 else (e0 - 1)%Z.

(** The nearest integer, ties to the even one. *)
Definition nearest_even (y : Q) : Z :=
  let q := Qfloor y in
  match Qcompare (y - inject_Z q) (1 # 2) with
  | Lt => q
  | Gt => (q + 1)%Z
  | Eq => if Z.even q then q else (q + 1)%Z
  end.

(** Modelled from the spec: rounding to the nearest binary64 number, ties to
    even: 53 significant bits.  The exponent is not bounded, so this is the
    arithmetic of the library as long as nothing overflows or underflows. *)
Definition round (x : Q) : Q :=
  if Qeq_bool x 0 then 0
  else
    let e := (floor_log2 (Qabs x) - 52)%Z in
    Qred (inject_Z (nearest_even (x / 2 ^ e)) * 2 ^ e).

Definition sub (x y : Q) : Q := round (x - y).

Definition mul (x y : Q) : Q := round (x * y).

(** Modelled from the spec: the ray-casting test on the current edge, as
    [Matplotlib.edge_flag], with the differences and the two products
    rounded. *)
Definition edge_flag (tx ty : Q) (s : Matplotlib.scan) : bool :=
  let yflag1 := Qle_bool ty (Matplotlib.vty1 s) in
  if negb (Bool.eqb (Matplotlib.yflag0 s) yflag1) then
    if Bool.eqb (Qle_bool (mul (sub (Matplotlib.vtx1 s) tx)
                               (sub (Matplotlib.vty0 s) (Matplotlib.vty1 s)))
                          (mul (sub (Matplotlib.vty1 s) ty)
                               (sub (Matplotlib.vtx0 s) (Matplotlib.vtx1 s)))) yflag1
    then negb (Matplotlib.subpath_flag s)
    else Matplotlib.subpath_flag s
  else Matplotlib.subpath_flag s.

(** Modelled from the spec: one turn of the scan, as [Matplotlib.advance]. *)
Definition advance (tx ty : Q) (s : Matplotlib.scan) (xy : point) : Matplotlib.scan :=
  {| Matplotlib.vtx0 := Matplotlib.vtx1 s; Matplotlib.vty0 := Matplotlib.vty1 s;
     Matplotlib.vtx1 := fst xy; Matplotlib.vty1 := snd xy;
     Matplotlib.yflag0 := Qle_bool ty (Matplotlib.vty1 s);
     Matplotlib.subpath_flag := edge_flag tx ty s |}.

(** Modelled from the spec: the scan of [Matplotlib.point_in_path] in the
    arithmetic of the library. *)
Definition point_in_path (tx ty : Q) (vs : list point) : bool :=
  if (List.length vs <? 3)%nat then false
  else match vs with
       | [] => false
       | (sx, sy) :: rest =>
           let s0 := {| Matplotlib.vtx0 := sx; Matplotlib.vty0 := sy;
                        Matplotlib.vtx1 := sx; Matplotlib.vty1 := sy;
                        Matplotlib.yflag0 := Qle_bool ty sy;
                        Matplotlib.subpath_flag := false |} in
           edge_flag tx ty (fold_left (advance tx ty) (rest ++ [(sx, sy)]) s0)
       end.

(** A point as the library holds it: both coordinates rounded. *)
Definition double (v : point) : point := (round (fst v), round (snd v)).

End Binary64.

(** [point_in_polygon(point, polygon)] on doubles. *)
Definition point_in_polygon64 (pt : point) (polygon : list point) : bool :=
  Binary64.point_in_path (fst (Binary64.double pt)) (snd (Binary64.double pt))
    (map Binary64.double polygon).

(** A point is clear of an edge when rounding cannot turn the test on it. *)
Module Clear.

(** Three roundings move a product by less than this share of itself. *)
Definition slack : Q := 1 # 2251799813685248.

(** The end points of [e] lie on opposite sides of the horizontal line
    through [p]; only then is the edge tested. *)
Definition straddles (p : point) (e : point * point) : bool :=
  negb (Bool.eqb (Crossings.yflag (snd p) (fst e)) (Crossings.yflag (snd p) (snd e))).

(** The two products the test compares on the edge from [a] to [b]. *)
Definition products (p a b : point) : Q * Q :=
  ((snd b - snd p) * (fst a - fst b), (fst b - fst p) * (snd a - snd b)).

(** The products differ by more than rounding can move them. *)
Definition decided (p a b : point) : bool :=
  let (l, r) := products p a b in
  negb (Qle_bool (Qabs (l - r)) (slack * (Qabs l + Qabs r))).

(** Zero, or of a size whose products neither overflow nor underflow. *)
Definition in_range (x : Q) : bool :=
  Qeq_bool x 0
  || (Qle_bool (2 ^ (-500)) (Qabs x) && Qle_bool (Qabs x) (2 ^ 500)).

(** The coordinates and differences the test on an edge works with, in
    either direction of traversal. *)
Definition operands (p a b : point) : list Q :=
  [ fst p; snd p; fst a; snd a; fst b; snd b;
    snd b - snd p; fst a - fst b; fst b - fst p; snd a - snd b;
    snd a - snd p; fst a - fst p ].

Definition clear_of (p : point) (e : point * point) : bool :=
  if straddles p e
  then decided p (fst e) (snd e) && decided p (snd e) (fst e)
       && forallb in_range (operands p (fst e) (snd e))
  else true.

End Clear.

(** The point is clear of every edge of the closed polygon, both taken as
    the library holds them. *)
Definition clear_of_edges (pt : point) (polygon : list point) : bool :=
  forallb (Clear.clear_of (Binary64.double pt))
          (Geometry.closed_edges (map Binary64.double polygon)).

(** Does the edge [e] flip the inside flag of [p] in the rounded scan? *)
Definition toggles64 (p : point) (e : point * point) : bool :=
  let (a, b) := e in
  negb (Bool.eqb (Crossings.yflag (snd p) a) (Crossings.yflag (snd p) b))
  && Bool.eqb (Qle_bool (Binary64.mul (Binary64.sub (fst b) (fst p))
                                      (Binary64.sub (snd a) (snd b)))
                        (Binary64.mul (Binary64.sub (snd b) (snd p))
                                      (Binary64.sub (fst a) (fst b))))
              (Crossings.yflag (snd p) b).

Definition parity_of (tog : point * point -> bool) (es : list (point * point)) : bool :=
  fold_right (fun e acc => xorb (tog e) acc) false es.

(** A point a few units in the last place off the right edge of the
    trapezoid. *)
Definition near_right_edge : point := (70.26318784134486, 20.702087126053957).

(** Case analysis on every comparison of rationals in the goal. *)
Ltac qcases :=
  repeat match goal with
  | |- context [Qle_bool ?x ?y] =>
      let H := fresh "C" in
      destruct (Qle_bool x y) eqn:H;
      [ apply Qle_bool_iff in H
      | apply not_true_iff_false in H; rewrite Qle_bool_iff in H;
        apply Qnot_le_lt in H ]
  end.

(** * Proofs *)

(** ** The crossings scan is the parity of the edges that flip the flag *)

Import Matplotlib Geometry Crossings.

Lemma edge_flag_toggles tx ty s :
  synced ty s ->
  edge_flag tx ty s
  = xorb (toggles (tx, ty) ((vtx0 s, vty0 s), (vtx1 s, vty1 s))) (subpath_flag s).
Proof.
  unfold synced, edge_flag, toggles, yflag; cbn [fst snd]; intros ->.
  destruct (Bool.eqb (Qle_bool ty (vty0 s)) (Qle_bool ty (vty1 s))); cbn;
    [reflexivity|].
  destruct (Bool.eqb _ _); cbn; [reflexivity|].
  reflexivity.
Qed.

Lemma scan_parity tx ty l : forall s,
  synced ty s ->
  edge_flag tx ty (fold_left (advance tx ty) l s)
  = xorb (subpath_flag s)
         (parity (tx, ty) (adjacent ((vtx0 s, vty0 s) :: (vtx1 s, vty1 s) :: l))).
Proof.
  induction l as [|[x y] l IH]; intros s Hs.
  - rewrite edge_flag_toggles by assumption. cbn.
    rewrite xorb_false_r. apply xorb_comm.
  - cbn [fold_left]. rewrite IH by reflexivity.
    cbn [advance vtx0 vty0 vtx1 vty1 subpath_flag fst snd].
    rewrite edge_flag_toggles by assumption.
    change (adjacent ((vtx0 s, vty0 s) :: (vtx1 s, vty1 s) :: (x, y) :: l))
      with (((vtx0 s, vty0 s), (vtx1 s, vty1 s))
              :: adjacent ((vtx1 s, vty1 s) :: (x, y) :: l)).
    cbn [parity fold_right].
    rewrite (xorb_comm (toggles _ _) (subpath_flag s)).
    apply xorb_assoc.
Qed.

Lemma toggles_same (p a : point) : toggles p (a, a) = false.
Proof. unfold toggles. now rewrite eqb_reflx. Qed.

Lemma point_in_path_parity tx ty vs :
  point_in_path tx ty vs
  = if (List.length vs <? 3)%nat then false
    else parity (tx, ty) (closed_edges vs).
Proof.
  unfold point_in_path. destruct (List.length vs <? 3)%nat; [reflexivity|].
  destruct vs as [|[sx sy] rest]; [reflexivity|].
  rewrite scan_parity by reflexivity.
  cbn [vtx0 vty0 vtx1 vty1 subpath_flag xorb closed_edges].
  destruct rest as [|r rest]; cbn [app adjacent parity fold_right];
    rewrite toggles_same; reflexivity.
Qed.

Lemma toggles_left (p a b : point) :
  fst p < fst a -> fst p < fst b ->
  toggles p (a, b) = xorb (yflag (snd p) a) (yflag (snd p) b).
Proof.
  destruct p as [tx ty], a as [ax ay], b as [bx by_].
  unfold toggles, yflag; cbn [fst snd]; intros Ha Hb.
  qcases; cbn; try reflexivity; exfalso; nra.
Qed.

Lemma toggles_right (p a b : point) :
  fst a < fst p -> fst b < fst p -> toggles p (a, b) = false.
Proof.
  destruct p as [tx ty], a as [ax ay], b as [bx by_].
  unfold toggles, yflag; cbn [fst snd]; intros Ha Hb.
  qcases; cbn; try reflexivity; exfalso; nra.
Qed.

Lemma toggles_below (p a b : point) :
  snd p < snd a -> snd p < snd b -> toggles p (a, b) = false.
Proof.
  destruct p as [tx ty], a as [ax ay], b as [bx by_].
  unfold toggles, yflag; cbn [fst snd]; intros Ha Hb.
  qcases; cbn; try reflexivity; exfalso; lra.
Qed.

Lemma toggles_above (p a b : point) :
  snd a < snd p -> snd b < snd p -> toggles p (a, b) = false.
Proof.
  destruct p as [tx ty], a as [ax ay], b as [bx by_].
  unfold toggles, yflag; cbn [fst snd]; intros Ha Hb.
  qcases; cbn; try reflexivity; exfalso; lra.
Qed.

Lemma parity_cons p e es :
  parity p (e :: es) = xorb (toggles p e) (parity p es).
Proof. reflexivity. Qed.

Lemma parity_app p es es' :
  parity p (es ++ es') = xorb (parity p es) (parity p es').
Proof.
  induction es as [|e es IH]; [reflexivity|].
  cbn [app]. unfold parity in *. cbn [fold_right].
  rewrite IH. symmetry. apply xorb_assoc.
Qed.

Lemma parity_rev p es : parity p (rev es) = parity p es.
Proof.
  induction es as [|e es IH]; [reflexivity|].
  cbn [rev]. rewrite parity_app, IH. cbn.
  rewrite xorb_false_r. apply xorb_comm.
Qed.

Lemma parity_none p es :
  (forall e, In e es -> toggles p e = false) -> parity p es = false.
Proof.
  induction es as [|e es IH]; intros H; [reflexivity|].
  cbn. rewrite (H e) by now left. cbn. apply IH. intros; apply H; now right.
Qed.

Lemma adjacent_ends a b vs :
  In (a, b) (adjacent vs) -> In a vs /\ In b vs.
Proof.
  induction vs as [|u [|w vs] IH]; cbn [adjacent]; try contradiction.
  intros [E|H].
  - inversion E; subst. split; [now left | right; now left].
  - destruct (IH H). split; now right.
Qed.

Lemma adjacent_snoc l a b :
  adjacent (l ++ [a; b]) = adjacent (l ++ [a]) ++ [(a, b)].
Proof.
  induction l as [|u [|w l] IH]; [reflexivity|reflexivity|].
  change (adjacent ((u :: w :: l) ++ [a; b]))
    with ((u, w) :: adjacent ((w :: l) ++ [a; b])).
  rewrite IH. reflexivity.
Qed.

Lemma adjacent_rev l : adjacent (rev l) = rev (map flip (adjacent l)).
Proof.
  induction l as [|u [|w l] IH]; [reflexivity|reflexivity|].
  change (adjacent (u :: w :: l)) with ((u, w) :: adjacent (w :: l)).
  cbn [map rev]. rewrite <- IH.
  change (rev (u :: w :: l)) with ((rev l ++ [w]) ++ [u]).
  rewrite <- app_assoc. cbn [app]. rewrite adjacent_snoc. reflexivity.
Qed.

Lemma closed_edges_rev p v t :
  parity p (closed_edges (rev (v :: t)))
  = parity p (map flip (closed_edges (v :: t))).
Proof.
  rewrite <- (parity_rev p (map flip _)).
  cbn [closed_edges]. rewrite <- adjacent_rev.
  change ((v :: t) ++ [v]) with (v :: (t ++ [v])).
  cbn [rev]. rewrite rev_app_distr. cbn [rev app].
  destruct (rev t ++ [v]) as [|w s] eqn:E.
  - destruct (rev t); discriminate.
  - cbn [closed_edges]. rewrite <- E, <- app_assoc. cbn [app].
    rewrite adjacent_snoc, parity_app, E.
    change (adjacent (v :: w :: s)) with ((v, w) :: adjacent (w :: s)).
    unfold parity at 2 3. cbn [fold_right]. rewrite xorb_false_r.
    apply xorb_comm.
Qed.

Lemma toggle_test_cross (p a b : point) :
  (snd b - snd p) * (fst a - fst b) - (fst b - fst p) * (snd a - snd b)
  == cross a b p.
Proof. unfold cross. ring. Qed.

Lemma between_spec u v w :
  between u v w = true <-> (u <= w /\ w <= v) \/ (v <= w /\ w <= u).
Proof.
  unfold between.
  rewrite orb_true_iff, !andb_true_iff, !Qle_bool_iff. reflexivity.
Qed.

Lemma straddled_collinear_on_segment (p a b : point) :
  yflag (snd p) a <> yflag (snd p) b ->
  cross a b p == 0 ->
  on_segment p (a, b) = true.
Proof.
  destruct p as [tx ty], a as [ax ay], b as [bx by_].
  unfold on_segment, yflag, cross; cbn [fst snd]; intros Hy Hc.
  rewrite !andb_true_iff, !between_spec, Qeq_bool_iff.
  revert Hy. qcases; intros Hy; try congruence.
  - split; [split; [assumption|]|right; lra].
    destruct (Qlt_le_dec ax bx); [left|right]; split; nra.
  - split; [split; [assumption|]|left; lra].
    destruct (Qlt_le_dec ax bx); [left|right]; split; nra.
Qed.

Lemma toggles_flip (p : point) (e : point * point) :
  on_segment p e = false -> toggles p (flip e) = toggles p e.
Proof.
  destruct e as [a b]. intros Hoff.
  assert (Hc : yflag (snd p) a <> yflag (snd p) b -> ~ cross a b p == 0).
  { intros Hy Hc. rewrite (straddled_collinear_on_segment p a b Hy Hc) in Hoff.
    discriminate. }
  pose proof (toggle_test_cross p a b) as Hab.
  pose proof (toggle_test_cross p b a) as Hba.
  assert (Hneg : cross b a p == - cross a b p) by (unfold cross; ring).
  revert Hc. unfold flip, toggles, yflag; cbn [fst snd].
  destruct p as [tx ty], a as [ax ay], b as [bx by_]; cbn [fst snd] in *.
  unfold yflag; cbn [snd].
  qcases; cbn; intros Hc; try reflexivity; exfalso;
    (assert (Hs : ~ cross (ax, ay) (bx, by_) (tx, ty) == 0)
       by (apply Hc; discriminate));
    lra.
Qed.


Lemma last_cons_default (c : point) l : forall d d',
  last (c :: l) d = last (c :: l) d'.
Proof.
  revert c. induction l as [|e l IH]; intros c d d'; [reflexivity|].
  change (last (e :: l) d = last (e :: l) d'). apply IH.
Qed.

Lemma parity_left p l : forall a,
  left_of p (a :: l) ->
  parity p (adjacent (a :: l))
  = xorb (yflag (snd p) a) (yflag (snd p) (last l a)).
Proof.
  induction l as [|b l IH]; intros a H.
  - cbn. now rewrite xorb_nilpotent.
  - inversion H as [|? ? Ha Hl]; subst. inversion Hl as [|? ? Hb _]; subst.
    change (adjacent (a :: b :: l)) with ((a, b) :: adjacent (b :: l)).
    rewrite parity_cons, (IH b Hl), (toggles_left p a b Ha Hb).
    replace (last (b :: l) a) with (last l b)
      by (destruct l as [|c l']; [reflexivity | exact (last_cons_default c l' b a)]).
    destruct (yflag (snd p) a), (yflag (snd p) b), (yflag (snd p) (last l b));
      reflexivity.
Qed.

Lemma closed_edges_cons v t : closed_edges (v :: t) = adjacent (v :: (t ++ [v])).
Proof. reflexivity. Qed.

Lemma parity_outside p vs :
  outside_bounding_box p vs -> parity p (closed_edges vs) = false.
Proof.
  destruct vs as [|v t]; [reflexivity|].
  rewrite closed_edges_cons.
  assert (Hin : forall a b, In (a, b) (adjacent (v :: (t ++ [v]))) ->
                            In a (v :: t) /\ In b (v :: t)).
  { intros a b H. apply adjacent_ends in H.
    assert (forall u, In u (v :: t ++ [v]) -> In u (v :: t)).
    { intros u [->|Hu]; [now left|].
      apply in_app_or in Hu as [Hu|[->|[]]]; [now right | now left]. }
    destruct H; split; auto. }
  intros [H|[H|[H|H]]].
  - assert (Hl : left_of p (v :: (t ++ [v]))).
    { inversion H; subst. constructor; [assumption|].
      apply Forall_app; split; [assumption | now constructor]. }
    rewrite (parity_left p _ v Hl), last_last. apply xorb_nilpotent.
  - apply parity_none. intros [a b] He. destruct (Hin a b He) as [Ia Ib].
    unfold right_of in H. rewrite Forall_forall in H.
    apply toggles_right; auto.
  - apply parity_none. intros [a b] He. destruct (Hin a b He) as [Ia Ib].
    unfold below in H. rewrite Forall_forall in H.
    apply toggles_below; auto.
  - apply parity_none. intros [a b] He. destruct (Hin a b He) as [Ia Ib].
    unfold above in H. rewrite Forall_forall in H.
    apply toggles_above; auto.
Qed.

Lemma point_in_polygon_parity p vs :
  point_in_polygon p vs
  = if (List.length vs <? 3)%nat then false else parity p (closed_edges vs).
Proof.
  unfold point_in_polygon, contains_point; cbn [vertices].
  rewrite point_in_path_parity. now destruct p.
Qed.

Lemma outside_bounding_box_not_contained p vs :
  outside_bounding_box p vs -> point_in_polygon p vs = false.
Proof.
  intros H. rewrite point_in_polygon_parity.
  destruct (List.length vs <? 3)%nat; [reflexivity|]. now apply parity_outside.
Qed.

Lemma parity_flip p es :
  existsb (on_segment p) es = false ->
  parity p (map flip es) = parity p es.
Proof.
  induction es as [|e es IH]; [reflexivity|].
  cbn [existsb map]. intros H. apply orb_false_iff in H as [He Hes].
  now rewrite !parity_cons, IH, toggles_flip.
Qed.

(** ** The scan on doubles *)

(** In exact arithmetic the scan does not depend on the direction of
    traversal for a point off the boundary. *)
Lemma exact_scan_reversal (p : point) (vs : list point) :
  on_boundary p vs = false ->
  point_in_polygon p (rev vs) = point_in_polygon p vs.
Proof.
  intros H. rewrite !point_in_polygon_parity, length_rev.
  destruct (List.length vs <? 3)%nat; [reflexivity|].
  destruct vs as [|v t]; [reflexivity|].
  rewrite closed_edges_rev. now apply parity_flip.
Qed.

(** The rounding is the one of binary64: one tenth becomes the double
    3602879701896397 / 2^55. *)
Lemma round_one_tenth :
  Binary64.round 0.1 = 3602879701896397 # 36028797018963968.
Proof. vm_compute. reflexivity. Qed.

Lemma two_neq_0 : ~ 2 == 0.
Proof. discriminate. Qed.

Lemma pow2_pos (k : Z) : 0 < 2 ^ k.
Proof. now apply Qpower_0_lt. Qed.

Lemma nearest_even_error (y : Q) :
  Qabs (inject_Z (Binary64.nearest_even y) - y) <= 1 # 2.
Proof.
  unfold Binary64.nearest_even. cbv zeta.
  pose proof (Qfloor_le y) as Hlo. pose proof (Qlt_floor y) as Hhi.
  rewrite inject_Z_plus in Hhi. change (inject_Z 1) with 1 in Hhi.
  apply Qabs_Qle_condition.
  destruct (Qcompare_spec (y - inject_Z (Qfloor y)) (1 # 2)) as [E|E|E].
  - destruct (Z.even (Qfloor y)); rewrite ?inject_Z_plus;
      change (inject_Z 1) with 1; split; lra.
  - split; lra.
  - rewrite inject_Z_plus. change (inject_Z 1) with 1. split; lra.
Qed.

Lemma floor_log2_le (x : Q) : 0 < x -> 2 ^ Binary64.floor_log2 x <= x.
Proof.
  intros Hx. unfold Binary64.floor_log2. cbv zeta.
  destruct (Qle_bool _ x) eqn:E; [now apply Qle_bool_iff|]. clear E.
  destruct x as [n d]. cbn [Qnum Qden].
  assert (Hn : (0 < n)%Z).
  { unfold Qlt in Hx. cbn in Hx. lia. }
  destruct (Z.log2_spec n Hn) as [Ln _].
  destruct (Z.log2_spec (Z.pos d) (Pos2Z.is_pos d)) as [_ Ld].
  pose proof (Z.log2_nonneg n) as Nn. pose proof (Z.log2_nonneg (Z.pos d)) as Nd.
  set (la := Z.log2 n) in *. set (ld := Z.log2 (Z.pos d)) in *.
  assert (Qn : 2 ^ la <= inject_Z n).
  { rewrite <- (Zpower_Qpower 2 la Nn). now rewrite <- Zle_Qle. }
  assert (Qd : inject_Z (Z.pos d) < 2 ^ (ld + 1)).
  { rewrite <- (Zpower_Qpower 2 (ld + 1)) by lia. now rewrite <- Zlt_Qlt. }
  assert (P : 2 ^ la == 2 ^ (la - ld - 1) * 2 ^ (ld + 1)).
  { rewrite <- Qpower_plus by apply two_neq_0. now replace (la - ld - 1 + (ld + 1))%Z with la by lia. }
  pose proof (pow2_pos (la - ld - 1)) as Pp.
  assert (Dp : 0 < inject_Z (Z.pos d)) by (now rewrite <- (Zlt_Qlt 0)).
  rewrite (Qmake_Qdiv n d).
  apply Qle_shift_div_l; [exact Dp|].
  set (a := 2 ^ (la - ld - 1)) in *. set (b := 2 ^ (ld + 1)) in *.
  set (dd := inject_Z (Z.pos d)) in *. set (nn := inject_Z n) in *. nra.
Qed.

Lemma round_error (x : Q) : Qabs (Binary64.round x - x) <= Binary64.unit_roundoff * Qabs x.
Proof.
  unfold Binary64.round.
  destruct (Qeq_bool x 0) eqn:Z0.
  - apply Qeq_bool_iff in Z0. rewrite Z0. cbn. discriminate.
  - apply Qeq_bool_neq in Z0. cbv zeta.
    assert (Ax : 0 < Qabs x).
    { destruct (Qlt_le_dec 0 (Qabs x)) as [H|H]; [exact H|].
      exfalso. apply Z0. pose proof (Qabs_nonneg x).
      assert (E : Qabs x <= 0) by lra.
      apply Qabs_Qle_condition in E. lra. }
    pose proof (floor_log2_le (Qabs x) Ax) as L.
    set (lg := Binary64.floor_log2 (Qabs x)) in *.
    set (e := (lg - 52)%Z).
    pose proof (pow2_pos e) as Pe.
    assert (P : 2 ^ lg == 2 ^ e * 2 ^ 52).
    { rewrite <- Qpower_plus by apply two_neq_0. unfold e.
      now replace (lg - 52 + 52)%Z with lg by lia. }
    pose proof (nearest_even_error (x / 2 ^ e)) as N.
    set (m := inject_Z (Binary64.nearest_even (x / 2 ^ e))) in *.
    rewrite Qred_correct.
    assert (Y : x == (x / 2 ^ e) * 2 ^ e) by (field; lra).
    set (y := x / 2 ^ e) in *.
    assert (D : m * 2 ^ e - x == (m - y) * 2 ^ e) by (rewrite Y at 1; ring).
    rewrite D, Qabs_Qmult, (Qabs_pos (2 ^ e)) by lra.
    assert (U : Binary64.unit_roundoff * Qabs x >= (1 # 2) * 2 ^ e).
    { change (2 ^ 52) with 4503599627370496 in P. unfold Binary64.unit_roundoff.
      set (p := 2 ^ e) in *. set (ax := Qabs x) in *. set (q := 2 ^ lg) in *. lra. }
    set (p := 2 ^ e) in *. set (d := Qabs (m - y)) in *. 
    set (ax := Qabs x) in *. nra.
Qed.

Lemma abs_grows (x x' : Q) :
  Qabs (x' - x) <= Binary64.unit_roundoff * Qabs x -> Qabs x' <= (1 + Binary64.unit_roundoff) * Qabs x.
Proof.
  intros H.
  assert (E : x' == (x' - x) + x) by ring.
  rewrite E at 1. pose proof (Qabs_triangle (x' - x) x). lra.
Qed.

Lemma product_error (a b c d : Q) :
  Qabs (Binary64.mul (Binary64.sub a b) (Binary64.sub c d) - (a - b) * (c - d))
  <= Clear.slack * Qabs ((a - b) * (c - d)).
Proof.
  unfold Binary64.mul, Binary64.sub.
  pose proof (round_error (a - b)) as Ep. pose proof (round_error (c - d)) as Eq_.
  set (P := a - b) in *. set (Q0 := c - d) in *.
  set (p := Binary64.round P) in *. set (q := Binary64.round Q0) in *.
  pose proof (round_error (p * q)) as Er. set (r := Binary64.round (p * q)) in *.
  pose proof (abs_grows _ _ Ep) as Gp. pose proof (abs_grows _ _ Eq_) as Gq.
  assert (E : r - P * Q0 == (r - p * q) + ((p - P) * q + P * (q - Q0))) by ring.
  rewrite E.
  pose proof (Qabs_triangle (r - p * q) ((p - P) * q + P * (q - Q0))) as T1.
  pose proof (Qabs_triangle ((p - P) * q) (P * (q - Q0))) as T2.
  rewrite !Qabs_Qmult in *.
  pose proof (Qabs_nonneg P). pose proof (Qabs_nonneg Q0).
  pose proof (Qabs_nonneg p). pose proof (Qabs_nonneg q).
  pose proof (Qabs_nonneg (p - P)). pose proof (Qabs_nonneg (q - Q0)).
  set (AP := Qabs P) in *. set (AQ := Qabs Q0) in *.
  set (Ap := Qabs p) in *. set (Aq := Qabs q) in *.
  set (Dp := Qabs (p - P)) in *. set (Dq := Qabs (q - Q0)) in *.
  set (Dr := Qabs (r - p * q)) in *.
  set (G := Qabs (r - p * q + ((p - P) * q + P * (q - Q0)))) in *.
  set (G2 := Qabs ((p - P) * q + P * (q - Q0))) in *.
  unfold Binary64.unit_roundoff, Clear.slack in *.
  assert (B1 : Ap * Aq <= (1 + (1 # 9007199254740992)) * (1 + (1 # 9007199254740992)) * (AP * AQ)) by nra.
  assert (B2 : Dp * Aq <= (1 # 9007199254740992) * (1 + (1 # 9007199254740992)) * (AP * AQ)) by nra.
  assert (B3 : AP * Dq <= (1 # 9007199254740992) * (AP * AQ)) by nra.
  assert (B0 : 0 <= AP * AQ) by nra.
  set (M := AP * AQ) in *. set (X1 := Ap * Aq) in *. set (X2 := Dp * Aq) in *.
  set (X3 := AP * Dq) in *. lra.
Qed.

(** A comparison of two rounded products comes out as the exact one when the
    exact products differ by more than the rounding can move them. *)
Lemma rounded_comparison (l r l' r' : Q) :
  Qabs (l' - l) <= Clear.slack * Qabs l ->
  Qabs (r' - r) <= Clear.slack * Qabs r ->
  Qle_bool (Qabs (l - r)) (Clear.slack * (Qabs l + Qabs r)) = false ->
  Qle_bool r' l' = Qle_bool r l.
Proof.
  intros Hl Hr Hd.
  apply not_true_iff_false in Hd. rewrite Qle_bool_iff in Hd.
  apply Qnot_le_lt in Hd.
  apply Qabs_Qle_condition in Hl. apply Qabs_Qle_condition in Hr.
  pose proof (Qabs_nonneg l). pose proof (Qabs_nonneg r).
  set (al := Qabs l) in *. set (ar := Qabs r) in *. unfold Clear.slack in *.
  destruct (Qlt_le_dec (l - r) 0) as [Hs|Hs].
  2:{ rewrite (Qabs_pos (l - r) Hs) in Hd.
      replace (Qle_bool r l) with true by (symmetry; apply Qle_bool_iff; lra).
      apply Qle_bool_iff. lra. }
  rewrite (Qabs_neg (l - r)) in Hd by lra.
  - replace (Qle_bool r l) with false
      by (symmetry; apply not_true_iff_false; rewrite Qle_bool_iff; lra).
    apply not_true_iff_false. rewrite Qle_bool_iff. lra.
Qed.

Lemma toggles64_exact (p a b : point) :
  Clear.decided p a b = true -> toggles64 p (a, b) = toggles p (a, b).
Proof.
  unfold Clear.decided, Clear.products, toggles64, toggles. intros H.
  apply negb_true_iff in H.
  destruct (negb (Bool.eqb _ _)); [cbn [andb]|reflexivity].
  f_equal. apply rounded_comparison; [apply product_error | apply product_error|].
  exact H.
Qed.

Lemma decided_off_line (p a b : point) :
  Clear.decided p a b = true -> ~ cross a b p == 0.
Proof.
  unfold Clear.decided, Clear.products. intros H C.
  apply negb_true_iff in H. apply not_true_iff_false in H. apply H.
  apply Qle_bool_iff.
  rewrite <- (toggle_test_cross p a b) in C.
  set (l := (snd b - snd p) * (fst a - fst b)) in *.
  set (r := (fst b - fst p) * (snd a - snd b)) in *.
  rewrite C. pose proof (Qabs_nonneg l). pose proof (Qabs_nonneg r).
  change (Qabs 0) with 0. unfold Clear.slack.
  set (al := Qabs l) in *. set (ar := Qabs r) in *. lra.
Qed.

Lemma straddles_flip (p : point) (e : point * point) :
  Clear.straddles p (flip e) = Clear.straddles p e.
Proof.
  unfold Clear.straddles, flip. cbn [fst snd].
  now destruct (yflag _ (fst e)), (yflag _ (snd e)).
Qed.

Lemma unstraddled (tog : point -> point * point -> bool) (p : point) e :
  (forall a b, tog p (a, b)
               = negb (Bool.eqb (yflag (snd p) a) (yflag (snd p) b)) && tog p (a, b)) ->
  Clear.straddles p e = false -> tog p e = false.
Proof.
  intros H S. destruct e as [a b]. rewrite H.
  unfold Clear.straddles in S. cbn [fst snd] in S. now rewrite S.
Qed.

Lemma toggles_guard p a b :
  toggles p (a, b)
  = negb (Bool.eqb (yflag (snd p) a) (yflag (snd p) b)) && toggles p (a, b).
Proof. unfold toggles. now destruct (negb _). Qed.

Lemma toggles64_guard p a b :
  toggles64 p (a, b)
  = negb (Bool.eqb (yflag (snd p) a) (yflag (snd p) b)) && toggles64 p (a, b).
Proof. unfold toggles64. now destruct (negb _). Qed.

(** On an edge the point is clear of, the rounded test is the exact one in
    both directions, and the two directions agree. *)
Lemma clear_edge (p : point) (e : point * point) :
  Clear.clear_of p e = true ->
  toggles64 p e = toggles p e
  /\ toggles64 p (flip e) = toggles p e.
Proof.
  unfold Clear.clear_of. destruct (Clear.straddles p e) eqn:S.
  - intros H. apply andb_true_iff in H as [H _].
    apply andb_true_iff in H as [Hf Hr]. destruct e as [a b]. cbn [fst snd] in *.
    split; [now apply toggles64_exact|].
    unfold flip. cbn [fst snd]. rewrite (toggles64_exact p b a Hr).
    apply (toggles_flip p (a, b)).
    unfold on_segment. pose proof (decided_off_line p a b Hf) as N.
    destruct (Qeq_bool (cross a b p) 0) eqn:E; [|reflexivity].
    apply Qeq_bool_iff in E. contradiction.
  - intros _.
    rewrite (unstraddled toggles64 p e (toggles64_guard p) S).
    rewrite (unstraddled toggles p e (toggles_guard p) S).
    rewrite <- straddles_flip in S.
    now rewrite (unstraddled toggles64 p (flip e) (toggles64_guard p) S).
Qed.

Lemma parity_of_cons tog e es :
  parity_of tog (e :: es) = xorb (tog e) (parity_of tog es).
Proof. reflexivity. Qed.

Lemma parity_of_app tog es es' :
  parity_of tog (es ++ es') = xorb (parity_of tog es) (parity_of tog es').
Proof.
  induction es as [|e es IH]; [reflexivity|].
  cbn [app]. rewrite !parity_of_cons, IH. symmetry. apply xorb_assoc.
Qed.

Lemma parity_of_rev tog es : parity_of tog (rev es) = parity_of tog es.
Proof.
  induction es as [|e es IH]; [reflexivity|].
  cbn [rev]. rewrite parity_of_app, IH, !parity_of_cons. cbn.
  rewrite xorb_false_r. apply xorb_comm.
Qed.

Lemma parity_of_closed_rev tog v t :
  parity_of tog (closed_edges (rev (v :: t)))
  = parity_of tog (map flip (closed_edges (v :: t))).
Proof.
  rewrite <- (parity_of_rev tog (map flip _)).
  cbn [closed_edges]. rewrite <- adjacent_rev.
  change ((v :: t) ++ [v]) with (v :: (t ++ [v])).
  cbn [rev]. rewrite rev_app_distr. cbn [rev app].
  destruct (rev t ++ [v]) as [|w s] eqn:E.
  - destruct (rev t); discriminate.
  - cbn [closed_edges]. rewrite <- E, <- app_assoc. cbn [app].
    rewrite adjacent_snoc, parity_of_app, E.
    change (adjacent (v :: w :: s)) with ((v, w) :: adjacent (w :: s)).
    rewrite parity_of_cons. cbn [parity_of fold_right]. rewrite xorb_false_r.
    apply xorb_comm.
Qed.

Lemma parity_of_clear (p : point) (es : list (point * point)) :
  forallb (Clear.clear_of p) es = true ->
  parity_of (toggles64 p) es = parity p es
  /\ parity_of (toggles64 p) (map flip es) = parity p es.
Proof.
  induction es as [|e es IH]; [now split|].
  cbn [forallb map]. intros H. apply andb_true_iff in H as [He Hes].
  destruct (IH Hes) as [I1 I2]. destruct (clear_edge p e He) as [C1 C2].
  rewrite !parity_of_cons, parity_cons, I1, I2, C1, C2. now split.
Qed.

Lemma edge_flag64_toggles tx ty s :
  synced ty s ->
  Binary64.edge_flag tx ty s
  = xorb (toggles64 (tx, ty) ((vtx0 s, vty0 s), (vtx1 s, vty1 s))) (subpath_flag s).
Proof.
  unfold synced, Binary64.edge_flag, toggles64, yflag; cbn [fst snd]; intros ->.
  destruct (Bool.eqb (Qle_bool ty (vty0 s)) (Qle_bool ty (vty1 s))); cbn;
    [reflexivity|].
  destruct (Bool.eqb _ _); cbn; reflexivity.
Qed.

Lemma scan64_parity tx ty l : forall s,
  synced ty s ->
  Binary64.edge_flag tx ty (fold_left (Binary64.advance tx ty) l s)
  = xorb (subpath_flag s)
         (parity_of (toggles64 (tx, ty))
            (adjacent ((vtx0 s, vty0 s) :: (vtx1 s, vty1 s) :: l))).
Proof.
  induction l as [|[x y] l IH]; intros s Hs.
  - rewrite edge_flag64_toggles by assumption. cbn.
    rewrite xorb_false_r. apply xorb_comm.
  - cbn [fold_left]. rewrite IH by reflexivity.
    cbn [Binary64.advance vtx0 vty0 vtx1 vty1 subpath_flag fst snd].
    rewrite edge_flag64_toggles by assumption.
    change (adjacent ((vtx0 s, vty0 s) :: (vtx1 s, vty1 s) :: (x, y) :: l))
      with (((vtx0 s, vty0 s), (vtx1 s, vty1 s))
              :: adjacent ((vtx1 s, vty1 s) :: (x, y) :: l)).
    rewrite parity_of_cons.
    rewrite (xorb_comm (toggles64 _ _) (subpath_flag s)).
    apply xorb_assoc.
Qed.

Lemma toggles64_same (p a : point) : toggles64 p (a, a) = false.
Proof. unfold toggles64. now rewrite eqb_reflx. Qed.

Lemma point_in_path64_parity tx ty vs :
  Binary64.point_in_path tx ty vs
  = if (List.length vs <? 3)%nat then false
    else parity_of (toggles64 (tx, ty)) (closed_edges vs).
Proof.
  unfold Binary64.point_in_path. destruct (List.length vs <? 3)%nat; [reflexivity|].
  destruct vs as [|[sx sy] rest]; [reflexivity|].
  rewrite scan64_parity by reflexivity.
  cbn [vtx0 vty0 vtx1 vty1 subpath_flag xorb closed_edges].
  destruct rest as [|r rest]; cbn [app adjacent];
    rewrite parity_of_cons, toggles64_same; reflexivity.
Qed.

(** C8 (as amended): for every polygon and every point that is clear of
    every edge of the closed polygon, [point_in_polygon] on doubles gives the
    same answer for the vertex list and for the vertex list in reversed
    order, and this answer is the one of exact arithmetic.  Clear of an edge
    means: when the end points of the edge lie on opposite sides of the
    horizontal line through the point, the two products the test compares
    differ by more than 2^-51 times the sum of their magnitudes, in both
    directions of traversal, and the coordinates and differences involved
    are zero or between 2^-500 and 2^500 in magnitude. *)
Theorem reversal_invariant_clear_of_edges (pt : point) (polygon : list point) :
  clear_of_edges pt polygon = true ->
  point_in_polygon64 pt (rev polygon) = point_in_polygon64 pt polygon
  /\ point_in_polygon64 pt polygon
     = point_in_polygon (Binary64.double pt) (map Binary64.double polygon).
Proof.
  unfold clear_of_edges, point_in_polygon64. intros H.
  rewrite map_rev, point_in_polygon_parity, !point_in_path64_parity.
  rewrite length_rev.
  set (p := Binary64.double pt) in *. set (vs := map Binary64.double polygon) in *.
  replace (fst p, snd p) with p by (now destruct p).
  destruct (List.length vs <? 3)%nat; [now split|].
  destruct (parity_of_clear p _ H) as [P1 P2].
  split; [|exact P1].
  destruct vs as [|v t]; [reflexivity|].
  now rewrite parity_of_closed_rev, P1, P2.
Qed.

Lemma reversal_invariant_clear_of_edges_witness :
  clear_of_edges (67.3, 30) trapezoid_points = true
  /\ point_in_polygon64 (67.3, 30) (rev trapezoid_points)
     = point_in_polygon64 (67.3, 30) trapezoid_points.
Proof.
  assert (H : clear_of_edges (67.3, 30) trapezoid_points = true)
    by (vm_compute; reflexivity).
  split; [exact H|].
  exact (proj1 (reversal_invariant_clear_of_edges (67.3, 30) trapezoid_points H)).
Defined.

(** C8 (as stated) fails on an edge and next to one.  The midpoint of the
    trapezoid's left edge is inside for the vertex order of the program and
    outside for the reversed order, in exact arithmetic and on doubles alike;
    so is, on doubles, a point that lies off the boundary but within the
    rounding error of the right edge. *)
Lemma reversal_flips_points_at_edges :
  (point_in_polygon (63.5, 30) trapezoid_points = true
   /\ point_in_polygon (63.5, 30) (rev trapezoid_points) = false)
  /\ (point_in_polygon64 (63.5, 30) trapezoid_points = true
      /\ point_in_polygon64 (63.5, 30) (rev trapezoid_points) = false)
  /\ (point_in_polygon64 near_right_edge trapezoid_points = true
      /\ point_in_polygon64 near_right_edge (rev trapezoid_points) = false
      /\ on_boundary (Binary64.double near_right_edge)
                     (map Binary64.double trapezoid_points) = false
      /\ clear_of_edges near_right_edge trapezoid_points = false).
Proof. vm_compute. repeat split. Qed.

(** C7: a point strictly outside the bounding box of the trapezoid, which
    spans 62.5 to 72 in tempo and 20 to 40 in efficiency margin, is
    classified outside, and the centroid of the trapezoid (area centroid, and
    vertex average as well) is classified inside. *)
Theorem trapezoid_box_and_centroid (p : point) :
  fst p < 62.5 \/ 72 < fst p \/ snd p < 20 \/ 40 < snd p ->
  point_in_polygon p trapezoid_points = false
  /\ point_in_polygon (centroid trapezoid_points) trapezoid_points = true
  /\ point_in_polygon (vertex_mean trapezoid_points) trapezoid_points = true.
Proof.
  intros H. split; [|split; reflexivity].
  apply outside_bounding_box_not_contained.
  unfold outside_bounding_box, left_of, right_of, below, above, trapezoid_points.
  destruct p as [tx ty]; cbn [fst snd] in *.
  destruct H as [H|[H|[H|H]]];
    [left | right; left | right; right; left | right; right; right];
    repeat constructor; cbn [fst snd]; lra.
Qed.

Lemma trapezoid_box_and_centroid_witness :
  72 < fst (80, 30)
  /\ point_in_polygon (80, 30) trapezoid_points = false.
Proof.
  assert (H : 72 < fst (80, 30)) by reflexivity.
  split; [exact H|].
  exact (proj1 (trapezoid_box_and_centroid (80, 30) (or_intror (or_introl H)))).
Defined.

(** ** Classification *)

Section Classification.

Variable polygon : list point.

Lemma classify_row_fold l : forall acc,
  fold_left (classify_row polygon) l acc
  = {| inside_trapezoid :=
         inside_trapezoid acc ++ map fst (filter (is_inside polygon) l);
       outside_trapezoid :=
         outside_trapezoid acc ++ map fst (filter (is_outside polygon) l);
       inside_data :=
         inside_data acc ++ map (fun ir => row_dict (snd ir)) (filter (is_inside polygon) l);
       outside_data :=
         outside_data acc ++ map (fun ir => row_dict (snd ir)) (filter (is_outside polygon) l) |}.
Proof.
  induction l as [|[idx row] l IH]; intros acc.
  - cbn. rewrite !app_nil_r. now destruct acc.
  - cbn [fold_left]. rewrite IH. unfold classify_row, is_outside, is_inside.
    cbn [filter snd fst].
    destruct (point_in_polygon (row_point row) polygon);
      cbn [negb map inside_trapezoid outside_trapezoid inside_data outside_data fst snd];
      rewrite <- ?app_assoc; reflexivity.
Qed.

Lemma classify_filter df :
  classify polygon df
  = {| inside_trapezoid := map fst (filter (is_inside polygon) (iterrows df));
       outside_trapezoid := map fst (filter (is_outside polygon) (iterrows df));
       inside_data :=
         map (fun ir => row_dict (snd ir)) (filter (is_inside polygon) (iterrows df));
       outside_data :=
         map (fun ir => row_dict (snd ir)) (filter (is_outside polygon) (iterrows df)) |}.
Proof. unfold classify. now rewrite classify_row_fold. Qed.

End Classification.

Lemma filter_split_permutation {A} (f : A -> bool) (l : list A) :
  Permutation (filter f l ++ filter (fun a => negb (f a)) l) l.
Proof.
  induction l as [|a l IH]; [constructor|].
  cbn. destruct (f a); cbn.
  - now constructor.
  - rewrite <- Permutation_middle. now constructor.
Qed.

Lemma iterrows_fst df : map fst (iterrows df) = seq 0 (List.length df).
Proof.
  unfold iterrows. generalize 0%nat.
  induction df as [|r df IH]; intros s; [reflexivity|].
  cbn. now rewrite IH.
Qed.

Lemma iterrows_snd df : map snd (iterrows df) = df.
Proof.
  unfold iterrows. generalize 0%nat.
  induction df as [|r df IH]; intros s; [reflexivity|].
  cbn. now rewrite IH.
Qed.

Lemma enumerate_lookup (df : DataFrame) : forall s,
  Forall (fun ir => (s <= fst ir)%nat /\ nth_error df (fst ir - s) = Some (snd ir))
         (combine (seq s (List.length df)) df).
Proof.
  induction df as [|r df IH]; intros s; [constructor|].
  cbn [List.length seq combine]. constructor.
  - cbn. rewrite Nat.sub_diag. split; [lia | reflexivity].
  - eapply Forall_impl; [|apply (IH (S s))].
    intros [i row]; cbn [fst snd]; intros [Hle Hnth]. split; [lia|].
    replace (i - s)%nat with (S (i - S s)) by lia. exact Hnth.
Qed.

Lemma iterrows_loc df :
  Forall (fun ir => loc df (fst ir) = Some (snd ir)) (iterrows df).
Proof.
  eapply Forall_impl; [|apply (enumerate_lookup df 0)].
  intros [i row]; cbn [fst snd]; intros [_ H].
  now rewrite Nat.sub_0_r in H.
Qed.

Lemma sorted_filter_fst (f : nat * TeamRating -> bool) (df : DataFrame) : forall s,
  StronglySorted lt (map fst (filter f (combine (seq s (List.length df)) df))).
Proof.
  induction df as [|r df IH]; intros s; [constructor|].
  cbn [List.length seq combine filter].
  destruct (f (s, r)); [|apply IH].
  cbn [map fst]. constructor; [apply IH|].
  apply Forall_forall. intros i Hi.
  apply in_map_iff in Hi as [[j row] [<- Hj]].
  apply filter_In in Hj as [Hj _].
  pose proof (enumerate_lookup df (S s)) as H.
  rewrite Forall_forall in H. destruct (H _ Hj) as [Hle _]. cbn in *. lia.
Qed.

Lemma inside_rows df :
  inside_data (classify trapezoid_points df) = map row_dict (filter in_trapezoid df).
Proof.
  rewrite classify_filter. cbn [inside_data].
  rewrite <- (iterrows_snd df) at 2.
  induction (iterrows df) as [|[i r] l IH]; [reflexivity|].
  unfold is_inside, in_trapezoid in *. cbn [filter map snd].
  destruct (point_in_polygon (row_point r) trapezoid_points); cbn [map snd];
    now rewrite IH.
Qed.

Lemma outside_rows df :
  outside_data (classify trapezoid_points df)
  = map row_dict (filter (fun row => negb (in_trapezoid row)) df).
Proof.
  rewrite classify_filter. cbn [outside_data].
  rewrite <- (iterrows_snd df) at 2.
  induction (iterrows df) as [|[i r] l IH]; [reflexivity|].
  unfold is_outside, is_inside, in_trapezoid in *. cbn [filter map snd].
  destruct (point_in_polygon (row_point r) trapezoid_points); cbn [negb map snd];
    now rewrite IH.
Qed.

(** C1: the classification of [create_plot] puts every row in exactly one of
    the two collections: the row indices of inside and outside together are
    the indices of the table, each once, so the collections are disjoint and
    cover the input; the collected dictionaries are those of the rows. *)
Theorem classification_is_partition (df : DataFrame) :
  let b := classify trapezoid_points df in
  Permutation (inside_trapezoid b ++ outside_trapezoid b) (seq 0 (List.length df))
  /\ NoDup (inside_trapezoid b ++ outside_trapezoid b)
  /\ Permutation (inside_data b ++ outside_data b) (map row_dict df).
Proof.
  cbv zeta. rewrite classify_filter.
  cbn [inside_trapezoid outside_trapezoid inside_data outside_data].
  assert (P : Permutation
                (filter (is_inside trapezoid_points) (iterrows df)
                 ++ filter (is_outside trapezoid_points) (iterrows df))
                (iterrows df)) by apply filter_split_permutation.
  assert (Pidx : Permutation
                   (map fst (filter (is_inside trapezoid_points) (iterrows df))
                    ++ map fst (filter (is_outside trapezoid_points) (iterrows df)))
                   (seq 0 (List.length df))).
  { rewrite <- map_app, <- iterrows_fst. now apply Permutation_map. }
  split; [exact Pidx|]. split.
  - apply (Permutation_NoDup (Permutation_sym Pidx)), seq_NoDup.
  - rewrite <- map_app. rewrite <- (iterrows_snd df) at 3.
    rewrite map_map. now apply Permutation_map.
Qed.

(** C6: within each of the two sequences the rows keep the order of the
    input: the row indices of each sequence are strictly increasing, and the
    collected dictionaries are those of the rows at these indices, in the same
    order. *)
Theorem classification_keeps_order (df : DataFrame) :
  let b := classify trapezoid_points df in
  StronglySorted lt (inside_trapezoid b)
  /\ StronglySorted lt (outside_trapezoid b)
  /\ map Some (inside_data b)
     = map (fun idx => option_map row_dict (loc df idx)) (inside_trapezoid b)
  /\ map Some (outside_data b)
     = map (fun idx => option_map row_dict (loc df idx)) (outside_trapezoid b).
Proof.
  cbv zeta. rewrite classify_filter.
  cbn [inside_trapezoid outside_trapezoid inside_data outside_data].
  assert (L : forall f,
             map Some (map (fun ir => row_dict (snd ir)) (filter f (iterrows df)))
             = map (fun idx => option_map row_dict (loc df idx))
                   (map fst (filter f (iterrows df)))).
  { intros f. rewrite !map_map. apply map_ext_in.
    intros ir Hir. apply filter_In in Hir as [Hir _].
    pose proof (iterrows_loc df) as H. rewrite Forall_forall in H.
    now rewrite (H ir Hir). }
  repeat split; try apply sorted_filter_fst; apply L.
Qed.

Lemma plot_figure_data w df year :
  go.data (plot_figure w df year)
  = let b := classify trapezoid_points df in
    [trapezoid_trace]
    ++ optional (nonempty (outside_data b)) (outside_trace (outside_data b))
    ++ optional (nonempty (inside_data b)) (inside_trace (inside_data b)).
Proof.
  unfold plot_figure. cbv zeta.
  destruct (nonempty (outside_data _)), (nonempty (inside_data _)); reflexivity.
Qed.

(** C9 (as amended): the chart holds the polygon outline trace, a closed path
    with a semi-transparent fill, then one marker trace for the outside
    points when there is at least one outside point, then one marker trace
    for the inside points when there is at least one inside point, and
    nothing else; a marker trace lists, point by point and in input order,
    the team name as hover text with tempo as x and efficiency margin as y,
    and its hover template shows all three. *)
Theorem chart_traces (w : World) (df : DataFrame) (year : option Z) :
  let outside := filter (fun row => negb (in_trapezoid row)) df in
  let inside := filter in_trapezoid df in
  let markers_out := outside_trace (map row_dict outside) in
  let markers_in := inside_trace (map row_dict inside) in
  go.data (plot_figure w df year)
  = [trapezoid_trace] ++ optional (nonempty outside) markers_out
                      ++ optional (nonempty inside) markers_in
  /\ (go.mode trapezoid_trace = "lines"
      /\ go.fill trapezoid_trace = Some "toself"
      /\ go.fillcolor trapezoid_trace = Some "rgba(0,0,0,0.1)"
      /\ hd_error (combine (go.x trapezoid_trace) (go.y trapezoid_trace))
         = Some (last (combine (go.x trapezoid_trace) (go.y trapezoid_trace)) (0, 0)))
  /\ (go.mode markers_out = "markers"
      /\ go.x markers_out = map AdjTempo outside
      /\ go.y markers_out = map AdjEM outside
      /\ go.text markers_out = Some (map TeamName outside)
      /\ go.hovertemplate markers_out = Some hover)
  /\ (go.mode markers_in = "markers"
      /\ go.x markers_in = map AdjTempo inside
      /\ go.y markers_in = map AdjEM inside
      /\ go.text markers_in = Some (map TeamName inside)
      /\ go.hovertemplate markers_in = Some hover)
  /\ (Str.contains "%{text}" hover && Str.contains "%{x:.1f}" hover
      && Str.contains "%{y:.1f}" hover = true).
Proof.
  cbv zeta. split.
  - rewrite plot_figure_data. cbv zeta. rewrite outside_rows, inside_rows.
    f_equal. f_equal.
    + f_equal. now destruct (filter _ df).
    + f_equal. now destruct (filter _ df).
  - cbn [outside_trace inside_trace go.mode go.x go.y go.text go.hovertemplate].
    rewrite !map_map. cbn [row_dict Dict.x Dict.y Dict.name].
    repeat split; reflexivity.
Qed.

(** C9 (as stated) fails when a collection is empty: for an empty table the
    chart holds the polygon outline and no marker trace at all. *)
Lemma chart_of_empty_table_has_no_markers :
  go.data (plot_figure Sample.world [] None) = [trapezoid_trace]
  /\ existsb (fun t => String.eqb (go.mode t) "markers")
            (go.data (plot_figure Sample.world [] None)) = false.
Proof. split; reflexivity. Qed.

(** C10: the outline drawn is the polygon classified against: every chart
    starts with the outline trace, whose points are the four vertices of
    [trapezoid_points] in the same order followed by the first vertex again,
    and the inside collection is made of exactly the rows whose point the
    test places in [trapezoid_points]. *)
Theorem outline_is_classified_polygon (w : World) (df : DataFrame) (year : option Z) :
  hd_error (go.data (plot_figure w df year)) = Some trapezoid_trace
  /\ combine (go.x trapezoid_trace) (go.y trapezoid_trace)
     = trapezoid_points ++ firstn 1 trapezoid_points
  /\ List.length trapezoid_points = 4%nat
  /\ inside_data (classify trapezoid_points df)
     = map row_dict
         (filter (fun row => point_in_polygon (row_point row) trapezoid_points) df).
Proof.
  split; [now rewrite plot_figure_data|].
  split; [reflexivity|]. split; [reflexivity|]. apply inside_rows.
Qed.

Lemma plot_figure_layout w df year :
  go.layout (plot_figure w df year) = Some (plot_layout (date_str w year)).
Proof. reflexivity. Qed.

(** C5 (as amended): for every integer year other than 0 the season label in
    the title is "{year}-{year+1} Season", in particular "2025-2026 Season"
    for 2025; when no year is given the label is the current date. *)
Theorem season_label_in_title (w : World) (df : DataFrame) (y : Z) :
  y <> 0%Z ->
  date_str w (Some y) = season_label y
  /\ chart_title (plot_figure w df (Some y)) = Some (title_text (season_label y))
  /\ season_label 2025 = "2025-2026 Season"
  /\ date_str w None = strftime_now w "%B %d, %Y"
  /\ chart_title (plot_figure w df None)
     = Some (title_text (strftime_now w "%B %d, %Y")).
Proof.
  intros Hy.
  assert (E : date_str w (Some y) = season_label y).
  { unfold date_str. destruct (Z.eqb_spec y 0); [contradiction | reflexivity]. }
  split; [exact E|]. split.
  - unfold chart_title. rewrite plot_figure_layout, E. reflexivity.
  - repeat split.
Qed.

Lemma season_label_in_title_witness :
  2025%Z <> 0%Z
  /\ date_str Sample.world (Some 2025%Z) = "2025-2026 Season".
Proof.
  assert (H : 2025%Z <> 0%Z) by discriminate.
  split; [exact H|].
  exact (proj1 (season_label_in_title Sample.world Sample.rows 2025 H)).
Defined.

(** C5 (as stated) fails at year 0: the truth test on the year takes 0 for no
    year, and the label is the current date. *)
Lemma season_label_year_zero :
  date_str Sample.world (Some 0%Z) = "November 04, 2026"
  /\ date_str Sample.world (Some 0%Z) <> season_label 0.
Proof. split; [reflexivity | discriminate]. Qed.


Lemma outcome_bind {A B} (m : IO A) (k : A -> IO B) :
  outcome (bind m k)
  = match outcome m with inl e => inl e | inr a => outcome (k a) end.
Proof.
  destruct m as [tr [e|a]]; [reflexivity|].
  unfold bind, outcome. cbn. now destruct (k a).
Qed.

Lemma trace_bind {A B} (m : IO A) (k : A -> IO B) :
  trace (bind m k)
  = match outcome m with
    | inl _ => trace m
    | inr a => trace m ++ trace (k a)
    end.
Proof.
  destruct m as [tr [e|a]]; [reflexivity|].
  unfold bind, trace, outcome. cbn. now destruct (k a).
Qed.

Lemma outcome_try {A} (m : IO A) (h : exception -> IO A) :
  outcome (try_except m h)
  = match outcome m with inl e => outcome (h e) | inr a => inr a end.
Proof.
  destruct m as [tr [e|a]]; [|reflexivity].
  unfold try_except, outcome. cbn. now destruct (h e).
Qed.

Lemma trace_try {A} (m : IO A) (h : exception -> IO A) :
  trace (try_except m h)
  = match outcome m with
    | inl e => trace m ++ trace (h e)
    | inr _ => trace m
    end.
Proof.
  destruct m as [tr [e|a]]; [|reflexivity].
  unfold try_except, trace, outcome. cbn. now destruct (h e).
Qed.

Lemma bind_assoc {A B C} (m : IO A) (k : A -> IO B) (k' : B -> IO C) :
  bind (bind m k) k' = bind m (fun a => bind (k a) k').
Proof.
  destruct m as [tr [e|a]]; [reflexivity|].
  unfold bind. destruct (k a) as [tr1 [e|b]]; [reflexivity|].
  destruct (k' b) as [tr2 r]. now rewrite app_assoc.
Qed.

Lemma in_trace_bind_l {A B} (m : IO A) (k : A -> IO B) ev :
  In ev (trace m) -> In ev (trace (bind m k)).
Proof.
  intros H. rewrite trace_bind. destruct (outcome m); [exact H|].
  apply in_or_app. now left.
Qed.

Lemma in_trace_bind_r {A B} (m : IO A) (k : A -> IO B) a ev :
  outcome m = inr a -> In ev (trace (k a)) -> In ev (trace (bind m k)).
Proof.
  intros Hm H. rewrite trace_bind, Hm. apply in_or_app. now right.
Qed.

Lemma in_trace_try {A} (m : IO A) (h : exception -> IO A) ev :
  In ev (trace m) -> In ev (trace (try_except m h)).
Proof.
  intros H. rewrite trace_try. destruct (outcome m); [|exact H].
  apply in_or_app. now left.
Qed.

Lemma none_of_app f tr tr' :
  none_of f (tr ++ tr') = none_of f tr && none_of f tr'.
Proof. apply forallb_app. Qed.

(** The summary never fails: the indices it looks up are row indices. *)
Lemma inside_indices_valid df idx :
  In idx (inside_trapezoid (classify trapezoid_points df)) ->
  exists row, loc df idx = Some row.
Proof.
  rewrite classify_filter. cbn [inside_trapezoid]. intros H.
  apply in_map_iff in H as [[i row] [<- H]].
  apply filter_In in H as [H _].
  pose proof (iterrows_loc df) as F. rewrite Forall_forall in F.
  exists row. exact (F _ H).
Qed.

Lemma for_each_succeeds {A} (l : list A) (body : A -> IO unit) :
  (forall a, In a l -> outcome (body a) = inr tt) ->
  outcome (for_each l body) = inr tt.
Proof.
  induction l as [|a l IH]; intros H; [reflexivity|].
  cbn [for_each]. rewrite outcome_bind, (H a) by now left.
  apply IH. intros; apply H; now right.
Qed.

Lemma for_each_trace {A} (f : event -> bool) (l : list A) (body : A -> IO unit) :
  (forall a, none_of f (trace (body a)) = true) ->
  none_of f (trace (for_each l body)) = true.
Proof.
  intros H. induction l as [|a l IH]; [reflexivity|].
  cbn [for_each]. rewrite trace_bind.
  destruct (outcome (body a)); [apply H|].
  now rewrite none_of_app, H, IH.
Qed.

Lemma create_plot_blocks w df output_path year :
  create_plot w df output_path year
  = (perform (WriteHtml output_path (plot_figure w df year))
       (write_html w (plot_figure w df year) output_path) ;;
     logger INFO (PlotSaved output_path) ;;
     save_png w (plot_figure w df year) (png_path output_path) ;;
     summary df (classify trapezoid_points df) ;;
     ret output_path).
Proof. unfold summary. rewrite bind_assoc. reflexivity. Qed.

Lemma save_png_outcome w fig path : outcome (save_png w fig path) = inr tt.
Proof.
  unfold save_png, perform. destruct (write_image w fig path); reflexivity.
Qed.

Lemma save_png_warns w fig path e :
  write_image w fig path = Some e ->
  In (Log WARNING (PngNotSaved (str e))) (trace (save_png w fig path)).
Proof.
  intros H. unfold save_png, perform. rewrite H. cbn. tauto.
Qed.

Lemma summary_outcome df :
  outcome (summary df (classify trapezoid_points df)) = inr tt.
Proof.
  unfold summary. rewrite outcome_bind. cbn [logger emit outcome snd].
  destruct (nonempty _); [|reflexivity].
  rewrite outcome_bind. cbn [logger emit outcome snd].
  apply for_each_succeeds. intros idx Hidx.
  destruct (inside_indices_valid df idx Hidx) as [row Hrow].
  unfold df_loc. now rewrite Hrow.
Qed.

Lemma create_plot_outcome w df output_path year :
  write_html w (plot_figure w df year) output_path = None ->
  outcome (create_plot w df output_path year) = inr output_path.
Proof.
  intros Hhtml. rewrite create_plot_blocks.
  rewrite outcome_bind. unfold perform at 1. rewrite Hhtml. cbn [outcome snd].
  rewrite outcome_bind. cbn [logger emit outcome snd].
  rewrite outcome_bind, save_png_outcome, outcome_bind, summary_outcome.
  reflexivity.
Qed.

Lemma create_plot_warns w df output_path year e :
  write_html w (plot_figure w df year) output_path = None ->
  write_image w (plot_figure w df year) (png_path output_path) = Some e ->
  In (Log WARNING (PngNotSaved (str e))) (trace (create_plot w df output_path year)).
Proof.
  intros Hhtml Hpng. rewrite create_plot_blocks.
  apply in_trace_bind_r with (a := tt);
    [unfold perform; now rewrite Hhtml|].
  apply in_trace_bind_r with (a := tt); [reflexivity|].
  apply in_trace_bind_l. now apply save_png_warns.
Qed.

Lemma main_outcome_ok w year output_dir df :
  os_makedirs w output_dir = None ->
  outcome (fetch_kenpom_data w year) = inr df ->
  outcome (create_plot w df (os_path.join output_dir "kenpom_ratings.html") year)
  = inr (os_path.join output_dir "kenpom_ratings.html") ->
  outcome (main w year output_dir)
  = inr (os_path.join output_dir "kenpom_ratings.html").
Proof.
  intros Hdir Hfetch Hplot. unfold main. cbv zeta.
  rewrite outcome_try, outcome_bind. unfold perform at 1. rewrite Hdir.
  cbn [outcome snd]. rewrite outcome_bind, Hfetch, outcome_bind, Hplot.
  reflexivity.
Qed.

(** C3: when the interactive HTML write succeeds the run succeeds whatever
    the static image export does: [main] returns the path of the interactive
    document, and an exception raised by the export is logged as a
    warning. *)
Theorem png_failure_does_not_fail_run
    (w : World) (year : option Z) (output_dir : string) (df : DataFrame) :
  let output_path := os_path.join output_dir "kenpom_ratings.html" in
  let fig := plot_figure w df year in
  os_makedirs w output_dir = None ->
  outcome (fetch_kenpom_data w year) = inr df ->
  write_html w fig output_path = None ->
  outcome (create_plot w df output_path year) = inr output_path
  /\ outcome (main w year output_dir) = inr output_path
  /\ forall e, write_image w fig (png_path output_path) = Some e ->
       In (Log WARNING (PngNotSaved (str e))) (trace (create_plot w df output_path year))
       /\ In (Log WARNING (PngNotSaved (str e))) (trace (main w year output_dir)).
Proof.
  cbv zeta. intros Hdir Hfetch Hhtml.
  pose proof (create_plot_outcome w df _ year Hhtml) as Hplot.
  split; [exact Hplot|]. split; [now apply main_outcome_ok with (df := df)|].
  intros e Hpng.
  pose proof (create_plot_warns w df _ year e Hhtml Hpng) as Hwarn.
  split; [exact Hwarn|].
  unfold main. cbv zeta. apply in_trace_try.
  apply in_trace_bind_r with (a := tt); [unfold perform; now rewrite Hdir|].
  apply in_trace_bind_r with (a := df); [exact Hfetch|].
  now apply in_trace_bind_l.
Qed.

Lemma png_failure_does_not_fail_run_witness :
  outcome (main Sample.world (Some 2025%Z) "output")
  = inr "output/kenpom_ratings.html"
  /\ In (Log WARNING (PngNotSaved "Chrome not found"))
        (trace (main Sample.world (Some 2025%Z) "output")).
Proof.
  pose proof (png_failure_does_not_fail_run Sample.world (Some 2025%Z) "output"
                Sample.rows eq_refl eq_refl eq_refl) as [_ [Hmain Hwarn]].
  split; [exact Hmain|].
  exact (proj2 (Hwarn (OtherError "RuntimeError" "Chrome not found") eq_refl)).
Defined.

Lemma resolve_absent w :
  process_environ w "KENPOM_API_KEY" = None ->
  dotenv_file w "KENPOM_API_KEY" = None ->
  airflow_variable w "KENPOM_API_KEY" None = None ->
  resolve_api_key w = None.
Proof.
  intros He Hd Ha. unfold resolve_api_key, os_getenv. rewrite He, Hd. exact Ha.
Qed.

(** C2: with the credential absent from the process environment, from the
    orchestration variable store and from the local developer file,
    [fetch_kenpom_data] raises the configuration error and causes no event at
    all, so no HTTP request; the message names the three places; a run of
    [main] makes no request either and, once the output directory is there,
    fails with that error. *)
Theorem missing_credential_fails_before_request
    (w : World) (year : option Z) (output_dir : string) :
  process_environ w "KENPOM_API_KEY" = None ->
  dotenv_file w "KENPOM_API_KEY" = None ->
  airflow_variable w "KENPOM_API_KEY" None = None ->
  fetch_kenpom_data w year = ([], inl (ValueError missing_key_message))
  /\ (Str.contains "Environment variable: KENPOM_API_KEY" missing_key_message
      && Str.contains "Airflow Variable" missing_key_message
      && Str.contains ".env file" missing_key_message = true)
  /\ none_of is_request (trace (main w year output_dir)) = true
  /\ (os_makedirs w output_dir = None ->
      outcome (main w year output_dir) = inl (ValueError missing_key_message)).
Proof.
  intros He Hd Ha.
  assert (F : fetch_kenpom_data w year = ([], inl (ValueError missing_key_message))).
  { unfold fetch_kenpom_data. cbv zeta. now rewrite (resolve_absent w He Hd Ha). }
  split; [exact F|]. split; [reflexivity|].
  unfold main. cbv zeta. rewrite F. unfold perform.
  destruct (os_makedirs w output_dir); split; try reflexivity; discriminate.
Qed.

Lemma missing_credential_fails_before_request_witness :
  fetch_kenpom_data Sample.world_without_key (Some 2025%Z)
  = ([], inl (ValueError missing_key_message)).
Proof.
  exact (proj1 (missing_credential_fails_before_request
                  Sample.world_without_key (Some 2025%Z) "output"
                  eq_refl eq_refl eq_refl)).
Defined.

Lemma raise_for_status_error r :
  (400 <= status_code r < 600)%Z ->
  raise_for_status r = ([], inl (HTTPError (status_error r) r)).
Proof.
  intros H. unfold raise_for_status, status_error.
  destruct (Z.ltb_spec (status_code r) 500).
  - replace (400 <=? status_code r)%Z with true by (symmetry; apply Z.leb_le; lia).
    reflexivity.
  - replace (400 <=? status_code r)%Z with true by (symmetry; apply Z.leb_le; lia).
    replace (500 <=? status_code r)%Z with true by (symmetry; apply Z.leb_le; lia).
    replace (status_code r <? 600)%Z with true by (symmetry; apply Z.ltb_lt; lia).
    reflexivity.
Qed.

Lemma fetch_upstream_error w year r :
  truthy (resolve_api_key w) = true ->
  requests_get w (ratings_url year) (bearer (resolve_api_key w)) = inr r ->
  (400 <= status_code r < 600)%Z ->
  fetch_kenpom_data w year
  = ([Log INFO (Fetching year);
      HttpGet (ratings_url year) (bearer (resolve_api_key w))],
     inl (HTTPError (status_error r) r)).
Proof.
  intros Hkey Hget Hst. unfold fetch_kenpom_data. cbv zeta.
  rewrite Hkey. cbn [negb]. unfold http_get. rewrite Hget.
  cbn [logger emit bind app]. rewrite (raise_for_status_error r Hst). reflexivity.
Qed.

(** C4: when the upstream API answers with an error status (400 to 599) the
    acquisition raises the HTTP error that carries the response, with its
    status and body; the error leaves [main], which logs it, and the run
    writes no chart artifact. *)
Theorem upstream_error_propagates
    (w : World) (year : option Z) (output_dir : string) (r : Response) :
  os_makedirs w output_dir = None ->
  truthy (resolve_api_key w) = true ->
  requests_get w (ratings_url year) (bearer (resolve_api_key w)) = inr r ->
  (400 <= status_code r < 600)%Z ->
  outcome (fetch_kenpom_data w year) = inl (HTTPError (status_error r) r)
  /\ outcome (main w year output_dir) = inl (HTTPError (status_error r) r)
  /\ none_of is_artifact (trace (main w year output_dir)) = true
  /\ In (Log ERROR (ErrorInMain (status_error r))) (trace (main w year output_dir)).
Proof.
  intros Hdir Hkey Hget Hst.
  pose proof (fetch_upstream_error w year r Hkey Hget Hst) as F.
  split; [now rewrite F|].
  unfold main. cbv zeta. rewrite F. unfold perform. rewrite Hdir.
  cbn. repeat split. tauto.
Qed.

Lemma upstream_error_propagates_witness :
  outcome (main Sample.world_upstream_down (Some 2025%Z) "output")
  = inl (HTTPError
           "500 Server Error: Internal Server Error for url: https://kenpom.com/api.php?endpoint=ratings&y=2025"
           (Sample.error_response (ratings_url (Some 2025%Z))))
  /\ none_of is_artifact (trace (main Sample.world_upstream_down (Some 2025%Z) "output"))
     = true.
Proof.
  assert (Hst : (400 <= status_code (Sample.error_response (ratings_url (Some 2025%Z))) < 600)%Z)
    by (cbn; lia).
  pose proof (upstream_error_propagates Sample.world_upstream_down (Some 2025%Z)
                "output" (Sample.error_response (ratings_url (Some 2025%Z)))
                eq_refl eq_refl eq_refl Hst) as [_ [Hmain [Hnone _]]].
  split; [exact Hmain | exact Hnone].
Defined.

(** * Further properties *)

(** ** Further properties of the acquisition *)

(** The shape of every run of [fetch_kenpom_data] that gets a credential. *)
Lemma fetch_with_key w year :
  truthy (resolve_api_key w) = true ->
  fetch_kenpom_data w year
  = (logger INFO (Fetching year) ;;
     response <- http_get w (ratings_url year) (bearer (resolve_api_key w)) ;;
     raise_for_status response ;;
     data <- response_json response ;;
     logger INFO (Fetched (List.length data)) ;;
     ret data).
Proof.
  intros H. unfold fetch_kenpom_data. cbv zeta. now rewrite H.
Qed.

Lemma fetch_without_key w year :
  truthy (resolve_api_key w) = false ->
  fetch_kenpom_data w year = ([], inl (ValueError missing_key_message)).
Proof.
  intros H. unfold fetch_kenpom_data. cbv zeta. now rewrite H.
Qed.

Lemma raise_for_status_trace r : trace (raise_for_status r) = [].
Proof.
  unfold raise_for_status.
  destruct (_ && _); [reflexivity|]. destruct (_ && _); reflexivity.
Qed.

Lemma response_json_trace r : trace (response_json r) = [].
Proof. unfold response_json. destruct (json r); reflexivity. Qed.

(** The events of an acquisition: nothing without a credential, otherwise the
    announcement, the request, and the count when a table came back. *)
Lemma fetch_trace w year :
  trace (fetch_kenpom_data w year)
  = if truthy (resolve_api_key w) then
      [Log INFO (Fetching year);
       HttpGet (ratings_url year) (bearer (resolve_api_key w))]
      ++ match outcome (fetch_kenpom_data w year) with
         | inr df => [Log INFO (Fetched (List.length df))]
         | inl _ => []
         end
    else [].
Proof.
  destruct (truthy (resolve_api_key w)) eqn:K;
    [|now rewrite fetch_without_key].
  rewrite fetch_with_key by assumption.
  unfold http_get.
  destruct (requests_get w _ _) as [e|r]; [reflexivity|].
  cbn [logger emit bind app].
  pose proof (raise_for_status_trace r) as T.
  destruct (raise_for_status r) as [tr [e|[]]]; cbn in T; subst tr;
    [reflexivity|].
  cbn [app]. unfold response_json. destruct (json r); reflexivity.
Qed.

Lemma fetch_requests w year :
  filter is_request (trace (fetch_kenpom_data w year))
  = if truthy (resolve_api_key w)
    then [HttpGet (ratings_url year) (bearer (resolve_api_key w))]
    else [].
Proof.
  rewrite fetch_trace. destruct (truthy _); [|reflexivity].
  destruct (outcome _); reflexivity.
Qed.

(** X1: an acquisition fails with the configuration error and without any
    event exactly when neither lookup gives a non-empty credential; an empty
    string counts as no credential. *)
Theorem configuration_error_iff_no_credential (w : World) (year : option Z) :
  fetch_kenpom_data w year = ([], inl (ValueError missing_key_message))
  <-> truthy (resolve_api_key w) = false.
Proof.
  split; [|apply fetch_without_key].
  intros H. destruct (truthy (resolve_api_key w)) eqn:K; [|reflexivity].
  pose proof (fetch_trace w year) as T. rewrite K, H in T. discriminate.
Qed.

(** X2: no retry: a run of the acquisition makes at most one HTTP request, and
    when it makes one it is the GET of the ratings endpoint for the year with
    the resolved credential as bearer token. *)
Theorem acquisition_sends_one_request (w : World) (year : option Z) :
  filter is_request (trace (fetch_kenpom_data w year))
  = (if truthy (resolve_api_key w)
     then [HttpGet (ratings_url year) (bearer (resolve_api_key w))]
     else [])
  /\ (List.length (filter is_request (trace (fetch_kenpom_data w year))) <= 1)%nat.
Proof.
  rewrite fetch_requests. split; [reflexivity|].
  destruct (truthy _); cbn; lia.
Qed.

(** X3: the variable store is consulted only when the environment gives no
    credential: with a non-empty key in the environment the acquisition does
    the same whatever the state of the store. *)
Theorem environment_key_shadows_store
    (w : World) (a : airflow_state) (year : option Z) :
  truthy (os_getenv w "KENPOM_API_KEY") = true ->
  resolve_api_key (with_airflow w a) = os_getenv w "KENPOM_API_KEY"
  /\ fetch_kenpom_data (with_airflow w a) year = fetch_kenpom_data w year.
Proof.
  intros H.
  assert (R : forall b, resolve_api_key (with_airflow w b) = os_getenv w "KENPOM_API_KEY").
  { intros b. unfold resolve_api_key.
    change (os_getenv (with_airflow w b) "KENPOM_API_KEY")
      with (os_getenv w "KENPOM_API_KEY").
    now rewrite H. }
  assert (R0 : resolve_api_key w = os_getenv w "KENPOM_API_KEY").
  { unfold resolve_api_key. now rewrite H. }
  split; [apply R|].
  unfold fetch_kenpom_data. cbv zeta. rewrite R, R0. reflexivity.
Qed.

Lemma environment_key_shadows_store_witness :
  fetch_kenpom_data (with_airflow Sample.world (Variables Sample2.store)) (Some 2025%Z)
  = fetch_kenpom_data Sample.world (Some 2025%Z).
Proof.
  exact (proj2 (environment_key_shadows_store Sample.world (Variables Sample2.store)
                  (Some 2025%Z) eq_refl)).
Defined.

(** X4: when the environment gives nothing or an empty string, the credential
    of the variable store is the one sent. *)
Theorem store_key_is_used (w : World) (year : option Z)
    (get : string -> option string) (key : string) :
  truthy (os_getenv w "KENPOM_API_KEY") = false ->
  airflow w = Variables get ->
  get "KENPOM_API_KEY" = Some key ->
  key <> "" ->
  filter is_request (trace (fetch_kenpom_data w year))
  = [HttpGet (ratings_url year) [("Authorization", "Bearer " ^^ key)]].
Proof.
  intros He Ha Hg Hk.
  assert (R : resolve_api_key w = Some key).
  { unfold resolve_api_key, airflow_variable. now rewrite He, Ha. }
  rewrite fetch_requests, R. cbn [truthy].
  destruct (String.eqb_spec key ""); [contradiction | reflexivity].
Qed.

Lemma store_key_is_used_witness :
  filter is_request (trace (fetch_kenpom_data Sample2.scheduled (Some 2025%Z)))
  = [HttpGet (ratings_url (Some 2025%Z)) [("Authorization", "Bearer from-airflow")]].
Proof.
  assert (H : "from-airflow" <> "") by discriminate.
  exact (store_key_is_used Sample2.scheduled (Some 2025%Z) Sample2.store
           "from-airflow" eq_refl eq_refl eq_refl H).
Defined.

(** ** Further properties of rendering *)

Lemma save_png_run w fig path :
  save_png w fig path
  = (WriteImage path fig 1200 800
       :: match write_image w fig path with
          | None => [Log INFO (PngSaved path)]
          | Some e => [Log WARNING (PngNotSaved (str e)); Log INFO HtmlSavedNote]
          end,
     inr tt).
Proof.
  unfold save_png, perform. destruct (write_image w fig path); reflexivity.
Qed.

Lemma for_each_lookup df (l : list (nat * TeamRating)) :
  Forall (fun ir => loc df (fst ir) = Some (snd ir)) l ->
  for_each (map fst l) (fun idx =>
    row <- df_loc df idx ;;
    logger INFO (Highlighted (TeamName row) (AdjTempo row) (AdjEM row)))
  = (map (fun ir => highlighted (snd ir)) l, inr tt).
Proof.
  induction 1 as [|[i r] l Hir _ IH]; [reflexivity|].
  cbn [map for_each fst snd] in *. unfold df_loc at 1. rewrite Hir, IH.
  reflexivity.
Qed.

Lemma inside_rows_enumerated (df : DataFrame) :
  map snd (filter (is_inside trapezoid_points) (iterrows df))
  = filter in_trapezoid df.
Proof.
  rewrite <- (iterrows_snd df) at 2.
  induction (iterrows df) as [|[i r] l IH]; [reflexivity|].
  unfold is_inside, in_trapezoid in *. cbn [filter map snd].
  destruct (point_in_polygon (row_point r) trapezoid_points); cbn [map snd];
    now rewrite IH.
Qed.

Lemma outside_rows_enumerated (df : DataFrame) :
  map snd (filter (is_outside trapezoid_points) (iterrows df))
  = filter (fun row => negb (in_trapezoid row)) df.
Proof.
  rewrite <- (iterrows_snd df) at 2.
  induction (iterrows df) as [|[i r] l IH]; [reflexivity|].
  unfold is_outside, is_inside, in_trapezoid in *. cbn [filter map snd].
  destruct (point_in_polygon (row_point r) trapezoid_points); cbn [negb map snd];
    now rewrite IH.
Qed.

Lemma inside_count df :
  List.length (inside_trapezoid (classify trapezoid_points df))
  = List.length (filter in_trapezoid df).
Proof.
  rewrite classify_filter. cbn [inside_trapezoid].
  now rewrite <- inside_rows_enumerated, !length_map.
Qed.

Lemma summary_run df :
  summary df (classify trapezoid_points df)
  = (Log INFO (TeamsInside (List.length (filter in_trapezoid df)))
       :: match filter in_trapezoid df with
          | [] => []
          | _ :: _ => Log INFO HighlightedTeams
                        :: map highlighted (filter in_trapezoid df)
          end,
     inr tt).
Proof.
  unfold summary. rewrite inside_count.
  rewrite classify_filter. cbn [inside_trapezoid].
  rewrite for_each_lookup.
  2:{ pose proof (iterrows_loc df) as F. rewrite Forall_forall in *.
      intros ir Hir. apply F. now apply filter_In in Hir as [Hir _]. }
  rewrite <- inside_rows_enumerated.
  destruct (filter (is_inside trapezoid_points) (iterrows df)) as [|ir l];
    [reflexivity|].
  cbn [map nonempty logger emit bind app]. now rewrite map_map.
Qed.

Lemma create_plot_run w df output_path year :
  create_plot w df output_path year
  = let fig := plot_figure w df year in
    match write_html w fig output_path with
    | Some e => ([WriteHtml output_path fig], inl e)
    | None =>
        ([WriteHtml output_path fig; Log INFO (PlotSaved output_path)]
           ++ trace (save_png w fig (png_path output_path))
           ++ trace (summary df (classify trapezoid_points df)),
         inr output_path)
    end.
Proof.
  rewrite create_plot_blocks. cbv zeta. unfold perform at 1.
  destruct (write_html w _ output_path); [reflexivity|].
  rewrite save_png_run, summary_run. cbn [logger emit bind app trace fst ret].
  now rewrite app_nil_r.
Qed.

Lemma main_run w year output_dir :
  main w year output_dir
  = let output_path := os_path.join output_dir "kenpom_ratings.html" in
    match os_makedirs w output_dir with
    | Some e => ([Makedirs output_dir; Log ERROR (ErrorInMain (str e))], inl e)
    | None =>
        match fetch_kenpom_data w year with
        | (tf, inl e) =>
            (Makedirs output_dir :: tf ++ [Log ERROR (ErrorInMain (str e))], inl e)
        | (tf, inr df) =>
            match create_plot w df output_path year with
            | (tc, inl e) =>
                (Makedirs output_dir :: tf ++ tc ++ [Log ERROR (ErrorInMain (str e))],
                 inl e)
            | (tc, inr _) =>
                (Makedirs output_dir :: tf ++ tc ++ [Log INFO Completed],
                 inr output_path)
            end
        end
    end.
Proof.
  unfold main. cbv zeta. unfold perform.
  destruct (os_makedirs w output_dir); [reflexivity|].
  destruct (fetch_kenpom_data w year) as [tf [e|df]]; [reflexivity|].
  cbn [bind]. destruct (create_plot w df _ year) as [tc [e|p]].
  - unfold try_except, logger, emit, raise, bind. cbn [app].
    now rewrite app_assoc.
  - reflexivity.
Qed.

Lemma last_snoc3 {A} (a : A) (l m : list A) (z d : A) :
  last (a :: l ++ m ++ [z]) d = z.
Proof.
  replace (a :: l ++ m ++ [z]) with ((a :: l ++ m) ++ [z])
    by (cbn [app]; now rewrite <- app_assoc).
  apply last_last.
Qed.

Lemma main_final_event w year output_dir d :
  last (trace (main w year output_dir)) d
  = match outcome (main w year output_dir) with
    | inl e => Log ERROR (ErrorInMain (str e))
    | inr _ => Log INFO Completed
    end.
Proof.
  rewrite main_run. cbv zeta.
  destruct (os_makedirs w output_dir); [reflexivity|].
  destruct (fetch_kenpom_data w year) as [tf [e|df]].
  - cbn [trace outcome fst snd]. apply (last_snoc3 _ tf []).
  - destruct (create_plot w df _ year) as [tc [e|p]];
      cbn [trace outcome fst snd]; apply last_snoc3.
Qed.

(** X5: the interactive document is mandatory: when its write raises,
    [create_plot] fails with that exception right there, with no log line and
    without trying the image export, and [main] fails with it too. *)
Theorem html_failure_is_fatal
    (w : World) (year : option Z) (output_dir : string) (df : DataFrame)
    (e : exception) :
  let output_path := os_path.join output_dir "kenpom_ratings.html" in
  os_makedirs w output_dir = None ->
  outcome (fetch_kenpom_data w year) = inr df ->
  write_html w (plot_figure w df year) output_path = Some e ->
  create_plot w df output_path year
  = ([WriteHtml output_path (plot_figure w df year)], inl e)
  /\ outcome (main w year output_dir) = inl e
  /\ filter is_artifact (trace (main w year output_dir))
     = [WriteHtml output_path (plot_figure w df year)]
  /\ last (trace (main w year output_dir)) (Log INFO Completed)
     = Log ERROR (ErrorInMain (str e)).
Proof.
  cbv zeta. intros Hdir Hfetch Hhtml.
  assert (C : create_plot w df (os_path.join output_dir "kenpom_ratings.html") year
              = ([WriteHtml (os_path.join output_dir "kenpom_ratings.html")
                    (plot_figure w df year)], inl e)).
  { rewrite create_plot_run. cbv zeta. now rewrite Hhtml. }
  split; [exact C|].
  pose proof (fetch_trace w year) as T.
  rewrite main_run. cbv zeta. rewrite Hdir.
  destruct (fetch_kenpom_data w year) as [tf [e0|df0]]; [discriminate|].
  cbn [outcome snd trace fst] in *. injection Hfetch as ->. rewrite C.
  cbn [outcome snd trace fst]. split; [reflexivity|]. split.
  - rewrite T. destruct (truthy _); reflexivity.
  - apply last_snoc3.
Qed.

Lemma html_failure_is_fatal_witness :
  outcome (main Sample2.world_readonly (Some 2025%Z) "output")
  = inl (OtherError "PermissionError" "Permission denied").
Proof.
  exact (proj1 (proj2 (html_failure_is_fatal Sample2.world_readonly (Some 2025%Z)
                         "output" Sample.rows
                         (OtherError "PermissionError" "Permission denied")
                         eq_refl eq_refl eq_refl))).
Defined.

Lemma filter_highlighted_map (f : event -> bool) (rows : list TeamRating) :
  (forall row, f (highlighted row) = false) ->
  filter f (map highlighted rows) = [].
Proof.
  intros H. induction rows as [|r rows IH]; [reflexivity|].
  cbn [map filter]. now rewrite H, IH.
Qed.

Lemma filter_is_highlighted_map (rows : list TeamRating) :
  filter is_highlighted (map highlighted rows) = map highlighted rows.
Proof.
  induction rows as [|r rows IH]; [reflexivity|].
  cbn [map filter is_highlighted highlighted]. now rewrite IH.
Qed.

Lemma summary_trace_filter (f : event -> bool) df :
  f (Log INFO (TeamsInside (List.length (filter in_trapezoid df)))) = false ->
  f (Log INFO HighlightedTeams) = false ->
  (forall row, f (highlighted row) = false) ->
  filter f (trace (summary df (classify trapezoid_points df))) = [].
Proof.
  intros H1 H2 H3. rewrite summary_run. cbn [trace fst filter]. rewrite H1.
  destruct (filter in_trapezoid df) eqn:E; [reflexivity|].
  cbn [filter]. rewrite H2. now apply filter_highlighted_map.
Qed.

(** X6: when the interactive document is written, [create_plot] makes exactly
    two writes, in this order: the document at the given path, then the
    image, of the same figure, next to it and at the size of the layout. *)
Theorem both_artifacts_show_one_figure
    (w : World) (df : DataFrame) (output_path : string) (year : option Z) :
  write_html w (plot_figure w df year) output_path = None ->
  let fig := plot_figure w df year in
  filter is_artifact (trace (create_plot w df output_path year))
  = [WriteHtml output_path fig; WriteImage (png_path output_path) fig 1200 800]
  /\ option_map go.width (go.layout fig) = Some 1200%Z
  /\ option_map go.height (go.layout fig) = Some 800%Z.
Proof.
  intros Hhtml. cbv zeta. split; [|split; reflexivity].
  rewrite create_plot_run. cbv zeta. rewrite Hhtml. cbn [trace fst].
  rewrite !filter_app, summary_trace_filter by reflexivity.
  rewrite save_png_run. cbn [trace fst].
  destruct (write_image w _ _); reflexivity.
Qed.

Lemma both_artifacts_show_one_figure_witness :
  filter is_artifact (trace (create_plot Sample.world Sample.rows "out/plot.html" None))
  = [WriteHtml "out/plot.html" (plot_figure Sample.world Sample.rows None);
     WriteImage "out/kenpom_ratings.png" (plot_figure Sample.world Sample.rows None)
       1200 800].
Proof.
  exact (proj1 (both_artifacts_show_one_figure Sample.world Sample.rows
                  "out/plot.html" None eq_refl)).
Defined.

(** X7: the summary names the inside teams and no other: after a successful
    document write the log holds the count of inside rows and one line per
    inside row, with its name and two metrics, in input order, whatever the
    image export did. *)
Theorem summary_lists_inside_teams
    (w : World) (df : DataFrame) (output_path : string) (year : option Z) :
  write_html w (plot_figure w df year) output_path = None ->
  filter is_highlighted (trace (create_plot w df output_path year))
  = map highlighted (filter in_trapezoid df)
  /\ In (Log INFO (TeamsInside (List.length (filter in_trapezoid df))))
        (trace (create_plot w df output_path year)).
Proof.
  intros Hhtml. rewrite create_plot_run. cbv zeta. rewrite Hhtml.
  cbn [trace fst]. split.
  - rewrite !filter_app, save_png_run, summary_run. cbn [trace fst].
    replace (filter is_highlighted (WriteImage _ _ _ _ :: _)) with (@nil event)
      by (destruct (write_image w _ _); reflexivity).
    cbn [filter app is_highlighted].
    destruct (filter in_trapezoid df) eqn:E; [reflexivity|].
    cbn [filter is_highlighted]. apply filter_is_highlighted_map.
  - rewrite summary_run. cbn [trace fst].
    apply in_or_app; right. apply in_or_app; right. now left.
Qed.

Lemma summary_lists_inside_teams_witness :
  filter is_highlighted
    (trace (create_plot Sample.world Sample.rows "out/plot.html" None))
  = [Log INFO (Highlighted "Centre" 67.3 30)].
Proof.
  exact (proj1 (summary_lists_inside_teams Sample.world Sample.rows
                  "out/plot.html" None eq_refl)).
Defined.

(** ** Further properties of the entry point *)

Lemma create_plot_no_request w df output_path year :
  filter is_request (trace (create_plot w df output_path year)) = [].
Proof.
  rewrite create_plot_run. cbv zeta.
  destruct (write_html w _ output_path); [reflexivity|].
  cbn [trace fst]. rewrite !filter_app, summary_trace_filter by reflexivity.
  rewrite save_png_run. cbn [trace fst].
  destruct (write_image w _ _); reflexivity.
Qed.

Lemma fetch_no_artifact w year :
  filter is_artifact (trace (fetch_kenpom_data w year)) = [].
Proof.
  rewrite fetch_trace. destruct (truthy _); [|reflexivity].
  destruct (outcome _); reflexivity.
Qed.

(** X8: a run of [main] starts by creating the output directory and ends by
    logging how it went: the last event is the error line of the exception it
    raises, or the completion line when it returns. *)
Theorem main_reports_its_outcome (w : World) (year : option Z) (output_dir : string) :
  hd_error (trace (main w year output_dir)) = Some (Makedirs output_dir)
  /\ last (trace (main w year output_dir)) (Makedirs output_dir)
     = match outcome (main w year output_dir) with
       | inl e => Log ERROR (ErrorInMain (str e))
       | inr _ => Log INFO Completed
       end.
Proof.
  split; [|apply main_final_event].
  rewrite main_run. cbv zeta.
  destruct (os_makedirs w output_dir); [reflexivity|].
  destruct (fetch_kenpom_data w year) as [tf [e|df]]; [reflexivity|].
  destruct (create_plot w df _ year) as [tc [e|p]]; reflexivity.
Qed.

(** X9: [main] returns exactly when the directory could be made, the
    acquisition gave a table and the interactive document of that table was
    written; what it returns is the path of that document in the output
    directory.  The image export has no say. *)
Theorem main_succeeds_iff
    (w : World) (year : option Z) (output_dir : string) (p : string) :
  outcome (main w year output_dir) = inr p
  <-> p = os_path.join output_dir "kenpom_ratings.html"
      /\ os_makedirs w output_dir = None
      /\ exists df, outcome (fetch_kenpom_data w year) = inr df
                    /\ write_html w (plot_figure w df year) p = None.
Proof.
  rewrite main_run. cbv zeta. split.
  - destruct (os_makedirs w output_dir); [discriminate|].
    destruct (fetch_kenpom_data w year) as [tf [e|df]]; [discriminate|].
    rewrite create_plot_run. cbv zeta.
    destruct (write_html w _ _) eqn:Hhtml; [discriminate|].
    cbn [outcome snd]. intros [= <-].
    split; [reflexivity|]. split; [reflexivity|]. now exists df.
  - intros [-> [Hdir [df [Hfetch Hhtml]]]]. rewrite Hdir.
    destruct (fetch_kenpom_data w year) as [tf [e|df0]]; [discriminate|].
    cbn [outcome snd] in Hfetch. injection Hfetch as ->.
    rewrite create_plot_run. cbv zeta. now rewrite Hhtml.
Qed.

(** X10: whatever makes the acquisition fail, [main] fails with the same
    exception and no chart is written, not even tried. *)
Theorem acquisition_failure_aborts
    (w : World) (year : option Z) (output_dir : string) (e : exception) :
  os_makedirs w output_dir = None ->
  outcome (fetch_kenpom_data w year) = inl e ->
  outcome (main w year output_dir) = inl e
  /\ filter is_artifact (trace (main w year output_dir)) = [].
Proof.
  intros Hdir Hfetch. pose proof (fetch_no_artifact w year) as N.
  rewrite main_run. cbv zeta. rewrite Hdir.
  destruct (fetch_kenpom_data w year) as [tf [e0|df]]; [|discriminate].
  cbn [outcome snd trace fst] in *. injection Hfetch as ->.
  split; [reflexivity|].
  cbn [filter is_artifact]. now rewrite filter_app, N.
Qed.

Lemma acquisition_failure_aborts_witness :
  outcome (main Sample2.world_offline (Some 2025%Z) "output")
  = inl (OtherError "ConnectionError" "Max retries exceeded")
  /\ filter is_artifact (trace (main Sample2.world_offline (Some 2025%Z) "output")) = [].
Proof.
  exact (acquisition_failure_aborts Sample2.world_offline (Some 2025%Z) "output"
           (OtherError "ConnectionError" "Max retries exceeded") eq_refl eq_refl).
Defined.

(** X11: when the output directory cannot be made the run stops there: the
    exception is logged and raised again, no request is sent and nothing is
    written. *)
Theorem directory_failure_stops_run
    (w : World) (year : option Z) (output_dir : string) (e : exception) :
  os_makedirs w output_dir = Some e ->
  main w year output_dir
  = ([Makedirs output_dir; Log ERROR (ErrorInMain (str e))], inl e).
Proof.
  intros Hdir. rewrite main_run. cbv zeta. now rewrite Hdir.
Qed.

Lemma directory_failure_stops_run_witness :
  main Sample2.world_no_disk (Some 2025%Z) "output"
  = ([Makedirs "output"; Log ERROR (ErrorInMain "No space left on device")],
     inl (OtherError "OSError" "No space left on device")).
Proof.
  exact (directory_failure_stops_run Sample2.world_no_disk (Some 2025%Z) "output"
           (OtherError "OSError" "No space left on device") eq_refl).
Defined.

Lemma clean_prefix (P : event -> bool) (l1 : list event) :
  forall l2 before ev after,
  l1 ++ l2 = before ++ ev :: after ->
  filter P l1 = [] ->
  P ev = true ->
  exists mid, before = l1 ++ mid /\ l2 = mid ++ ev :: after.
Proof.
  induction l1 as [|x l1 IH]; intros l2 before ev after E C Pev.
  - now exists before.
  - cbn [filter] in C. destruct (P x) eqn:Px; [discriminate|].
    destruct before as [|b before]; cbn [app] in E; injection E as -> E.
    + congruence.
    + destruct (IH _ _ _ _ E C Pev) as [mid [-> ->]]. now exists mid.
Qed.

Lemma occurs_in_filter (P : event -> bool) l before ev after :
  l = before ++ ev :: after -> P ev = true -> filter P l <> [].
Proof.
  intros -> Pev. rewrite filter_app. cbn [filter]. rewrite Pev.
  intros E. apply app_eq_nil in E as [_ E]. discriminate.
Qed.

Lemma fetch_ok_has_key w year df :
  outcome (fetch_kenpom_data w year) = inr df ->
  truthy (resolve_api_key w) = true.
Proof.
  intros H. destruct (truthy (resolve_api_key w)) eqn:K; [reflexivity|].
  rewrite (fetch_without_key w year K) in H. discriminate.
Qed.

(** X12: [main] never writes before it has fetched: wherever a run writes
    the document or the image, the run's one HTTP request and the log line of
    the fetched table come before that write, and no request comes after
    it. *)
Theorem main_fetches_before_it_writes
    (w : World) (year : option Z) (output_dir : string)
    (before after : list event) (ev : event) :
  trace (main w year output_dir) = before ++ ev :: after ->
  is_artifact ev = true ->
  filter is_request before
  = [HttpGet (ratings_url year) (bearer (resolve_api_key w))]
  /\ filter is_request after = []
  /\ exists df, outcome (fetch_kenpom_data w year) = inr df
                /\ In (Log INFO (Fetched (List.length df))) before.
Proof.
  pose proof (fetch_no_artifact w year) as NA.
  pose proof (fetch_trace w year) as FT.
  pose proof (fetch_requests w year) as FR.
  pose proof (fetch_ok_has_key w year) as FK.
  rewrite main_run. cbv zeta. intros E Hev.
  destruct (os_makedirs w output_dir).
  { exfalso. now apply (occurs_in_filter is_artifact _ _ _ _ E Hev). }
  destruct (fetch_kenpom_data w year) as [tf [e|df]]; cbn [trace fst outcome snd] in *.
  { exfalso. apply (occurs_in_filter is_artifact _ _ _ _ E Hev).
    cbn [filter is_artifact]. now rewrite filter_app, NA. }
  rewrite (FK df eq_refl) in FT, FR.
  pose proof (create_plot_no_request w df
                (os_path.join output_dir "kenpom_ratings.html") year) as NC.
  assert (T : exists tc z,
             is_request z = false /\
             filter is_request tc = [] /\
             (Makedirs output_dir :: tf) ++ (tc ++ [z]) = before ++ ev :: after).
  { destruct (create_plot w df _ year) as [tc [e|p]]; cbn [trace fst] in *;
      eexists tc, _; (split; [|split; [exact NC | exact E]]); reflexivity. }
  destruct T as [tc [z [Hz [Htc E']]]].
  destruct (clean_prefix is_artifact _ _ _ _ _ E') as [mid [-> Hmid]];
    [cbn [filter is_artifact]; exact NA | exact Hev |].
  assert (R : filter is_request (mid ++ ev :: after) = []).
  { rewrite <- Hmid, filter_app, Htc. cbn [filter]. now rewrite Hz. }
  rewrite filter_app in R. apply app_eq_nil in R as [Rmid Rafter].
  cbn [filter] in Rafter.
  assert (Ra : filter is_request after = []).
  { destruct (is_request ev); [discriminate | exact Rafter]. }
  split; [|split; [exact Ra|]].
  - rewrite filter_app, Rmid, app_nil_r. cbn [filter is_request]. exact FR.
  - exists df. split; [reflexivity|].
    apply in_or_app. left. right. rewrite FT.
    apply in_or_app. right. now left.
Qed.

Lemma main_fetches_before_it_writes_witness :
  filter is_request
    [Makedirs "output"; Log INFO (Fetching (Some 2025%Z));
     HttpGet (ratings_url (Some 2025%Z)) (bearer (resolve_api_key Sample.world));
     Log INFO (Fetched 3)]
  = [HttpGet (ratings_url (Some 2025%Z)) (bearer (resolve_api_key Sample.world))].
Proof.
  refine (proj1 (main_fetches_before_it_writes Sample.world (Some 2025%Z) "output"
                   [Makedirs "output"; Log INFO (Fetching (Some 2025%Z));
                    HttpGet (ratings_url (Some 2025%Z))
                      (bearer (resolve_api_key Sample.world));
                    Log INFO (Fetched 3)]
                   (tl (trace (create_plot Sample.world Sample.rows
                                 "output/kenpom_ratings.html" (Some 2025%Z)))
                      ++ [Log INFO Completed])
                   (WriteHtml "output/kenpom_ratings.html"
                      (plot_figure Sample.world Sample.rows (Some 2025%Z)))
                   _ _)); reflexivity.
Defined.

(** ** Further properties of the classification and the chart *)

Lemma enumerated_entry (df : DataFrame) i row :
  In (i, row) (iterrows df) <-> loc df i = Some row.
Proof.
  split.
  - intros H. pose proof (iterrows_loc df) as F. rewrite Forall_forall in F.
    exact (F _ H).
  - unfold iterrows, loc.
    assert (G : forall s, nth_error df i = Some row ->
                          In ((s + i)%nat, row) (combine (seq s (List.length df)) df)).
    { revert i. induction df as [|r df IH]; intros i s H.
      - destruct i; discriminate.
      - destruct i as [|i]; cbn [nth_error] in H.
        + injection H as ->. rewrite Nat.add_0_r. now left.
        + right. replace (s + S i)%nat with (S s + i)%nat by lia. now apply IH. }
    intros H. exact (G 0%nat H).
Qed.

(** X13: which list a row index lands in is decided by the point of that row
    alone: an index is in the inside list exactly when it is the index of a
    row whose (tempo, margin) point passes the test against the trapezoid,
    and in the outside list exactly when the point of its row fails it. *)
Theorem bucket_of_index (df : DataFrame) (idx : nat) :
  let b := classify trapezoid_points df in
  (In idx (inside_trapezoid b)
   <-> exists row, loc df idx = Some row /\ in_trapezoid row = true)
  /\ (In idx (outside_trapezoid b)
      <-> exists row, loc df idx = Some row /\ in_trapezoid row = false).
Proof.
  cbv zeta. rewrite classify_filter. cbn [inside_trapezoid outside_trapezoid].
  split; rewrite in_map_iff; split.
  - intros [[i row] [<- H]]. apply filter_In in H as [H T].
    exists row. split; [now apply enumerated_entry | exact T].
  - intros [row [H T]]. exists (idx, row). split; [reflexivity|].
    apply filter_In. split; [now apply enumerated_entry | exact T].
  - intros [[i row] [<- H]]. apply filter_In in H as [H T].
    exists row. split; [now apply enumerated_entry|].
    unfold is_outside, is_inside in T. cbn [snd] in T.
    now apply negb_true_iff in T.
  - intros [row [H T]]. exists (idx, row). split; [reflexivity|].
    apply filter_In. split; [now apply enumerated_entry|].
    unfold is_outside, is_inside. cbn [snd]. now apply negb_true_iff.
Qed.

(** X14: every team is drawn once: the marker traces of the chart hold as many
    points as the table has rows, and the chart has the outline and at most
    two more traces. *)
Theorem every_team_is_one_marker (w : World) (df : DataFrame) (year : option Z) :
  marker_points (plot_figure w df year) = List.length df
  /\ (1 <= List.length (go.data (plot_figure w df year)) <= 3)%nat.
Proof.
  pose proof (plot_figure_data w df year) as D. cbv zeta in D.
  rewrite outside_rows, inside_rows in D. split.
  - unfold marker_points. rewrite D. cbn [app fold_right go.mode trapezoid_trace].
    cbn [String.eqb Ascii.eqb Bool.eqb].
    pose proof (filter_split_permutation in_trapezoid df) as P.
    apply Permutation_length in P. rewrite length_app in P. rewrite <- P.
    destruct (filter in_trapezoid df) as [|r1 l1];
      destruct (filter (fun row => negb (in_trapezoid row)) df) as [|r2 l2];
      cbn [map nonempty optional app fold_right go.mode go.x outside_trace inside_trace
           List.length];
      rewrite ?length_map; cbn; lia.
  - rewrite D.
    destruct (nonempty _), (nonempty _); cbn; lia.
Qed.

(** ** Paths *)

Lemma list_ascii_of_append (a b : string) :
  list_ascii_of_string (a ^^ b) = list_ascii_of_string a ++ list_ascii_of_string b.
Proof. induction a as [|c a IH]; [reflexivity|]. cbn. now rewrite IH. Qed.

Lemma lstrip_name_plain (l rest : list ascii) :
  forallb (fun c => negb (os_path.is_sep c)) l = true ->
  os_path.lstrip_name (l ++ "/"%char :: rest) = "/"%char :: rest.
Proof.
  induction l as [|c l IH]; [reflexivity|].
  cbn [forallb app os_path.lstrip_name]. intros H.
  apply andb_true_iff in H as [Hc Hl].
  apply negb_true_iff in Hc. rewrite Hc. now apply IH.
Qed.

Lemma forallb_rev {A} (f : A -> bool) (l : list A) :
  forallb f (rev l) = forallb f l.
Proof.
  induction l as [|a l IH]; [reflexivity|].
  cbn [rev forallb]. rewrite forallb_app, IH. cbn. rewrite andb_true_r.
  apply andb_comm.
Qed.

Lemma join_plain (d f : string) :
  d <> "" -> os_path.endswith_sep d = false -> plain_name f = true ->
  os_path.join d f = d ^^ "/" ^^ f.
Proof.
  intros Hd He Hf. unfold os_path.join. rewrite He.
  replace (String.prefix "/" f) with false.
  - destruct (String.eqb_spec d ""); [contradiction | reflexivity].
  - destruct f as [|c f]; [reflexivity|].
    unfold plain_name in Hf. cbn [list_ascii_of_string forallb] in Hf.
    apply andb_true_iff in Hf as [Hc _]. apply negb_true_iff in Hc.
    unfold os_path.is_sep in Hc. cbn [String.prefix].
    destruct (Ascii.eqb_spec c "/"%char) as [->|Hne]; [discriminate|].
    destruct (ascii_dec "/" c) as [E|E]; [now subst | reflexivity].
Qed.

Lemma dirname_join (d f : string) :
  d <> "" -> os_path.endswith_sep d = false -> plain_name f = true ->
  os_path.dirname (os_path.join d f) = d.
Proof.
  intros Hd He Hf. rewrite join_plain by assumption.
  unfold os_path.dirname.
  rewrite !list_ascii_of_append. cbn [list_ascii_of_string app].
  rewrite rev_app_distr. cbn [rev]. rewrite <- app_assoc. cbn [app].
  rewrite lstrip_name_plain by (now rewrite forallb_rev).
  unfold os_path.endswith_sep in He.
  destruct (rev (list_ascii_of_string d)) as [|c t] eqn:R.
  - exfalso. apply Hd.
    rewrite <- (string_of_list_ascii_of_string d).
    rewrite <- (rev_involutive (list_ascii_of_string d)), R. reflexivity.
  - cbn [forallb os_path.lstrip_sep]. rewrite He.
    change (os_path.is_sep "/") with true. cbn [andb].
    rewrite <- R, rev_involutive. apply string_of_list_ascii_of_string.
Qed.

(** X15: both artifacts land in the output directory: for a directory name
    that is not empty and does not end in a separator, the directory of the
    interactive document that [main] asks for is that directory, and the image
    that [create_plot] exports goes to [kenpom_ratings.png] in it. *)
Theorem artifacts_share_directory (output_dir : string) :
  output_dir <> "" ->
  os_path.endswith_sep output_dir = false ->
  let output_path := os_path.join output_dir "kenpom_ratings.html" in
  os_path.dirname output_path = output_dir
  /\ png_path output_path = os_path.join output_dir "kenpom_ratings.png"
  /\ png_path output_path = output_dir ^^ "/kenpom_ratings.png".
Proof.
  intros Hd He. cbv zeta.
  assert (D : os_path.dirname (os_path.join output_dir "kenpom_ratings.html")
              = output_dir) by (now apply dirname_join).
  split; [exact D|].
  assert (P : png_path (os_path.join output_dir "kenpom_ratings.html")
              = os_path.join output_dir "kenpom_ratings.png").
  { unfold png_path. cbv zeta. rewrite D.
    destruct (String.eqb_spec output_dir ""); [contradiction | reflexivity]. }
  split; [exact P|]. rewrite P. now apply join_plain.
Qed.

Lemma artifacts_share_directory_witness :
  png_path (os_path.join "dags/output" "kenpom_ratings.html")
  = "dags/output/kenpom_ratings.png".
Proof.
  assert (H : "dags/output" <> "") by discriminate.
  exact (proj2 (proj2 (artifacts_share_directory "dags/output" H eq_refl))).
Defined.

(** ** The scheduled task *)

Lemma bind_ret {A} (m : IO A) : bind m (fun a => ret a) = m.
Proof.
  destruct m as [tr [e|a]]; [reflexivity|].
  unfold bind, ret. now rewrite app_nil_r.
Qed.

Lemma bind_ext {A B} (m : IO A) (k k' : A -> IO B) :
  (forall a, k a = k' a) -> bind m k = bind m k'.
Proof.
  intros H. destruct m as [tr [e|a]]; [reflexivity|].
  unfold bind. now rewrite H.
Qed.

Lemma run_with_year_main w file y :
  run_with_year w file y
  = (perform (Makedirs (os_path.join (os_path.dirname file) "output"))
       (os_makedirs w (os_path.join (os_path.dirname file) "output")) ;;
     main w (Some y) (os_path.join (os_path.dirname file) "output")).
Proof.
  unfold run_with_year. cbv zeta. apply bind_ext. intros _. apply bind_ret.
Qed.

Lemma task_run (int : string -> option Z) w file ctx :
  Dag.run_kenpom_plot int w file ctx
  = (y <- Dag.resolve_year int w
            (Dag.or_else (Dag.execution_date ctx) (Dag.data_interval_start ctx)) ;;
     run_with_year w file y).
Proof. reflexivity. Qed.

Lemma main_returns_path w year output_dir p :
  outcome (main w year output_dir) = inr p ->
  p = os_path.join output_dir "kenpom_ratings.html".
Proof.
  rewrite main_run. cbv zeta.
  destruct (os_makedirs w output_dir); [discriminate|].
  destruct (fetch_kenpom_data w year) as [tf [e|df]]; [discriminate|].
  destruct (create_plot w df _ year) as [tc [e|q]]; [discriminate|].
  cbn. now intros [= <-].
Qed.

Lemma main_requests w year output_dir :
  filter is_request (trace (main w year output_dir))
  = match os_makedirs w output_dir with
    | Some _ => []
    | None => filter is_request (trace (fetch_kenpom_data w year))
    end.
Proof.
  rewrite main_run. cbv zeta.
  destruct (os_makedirs w output_dir); [reflexivity|].
  destruct (fetch_kenpom_data w year) as [tf [e|df]]; cbn [trace fst].
  - cbn [filter is_request]. rewrite filter_app. cbn. apply app_nil_r.
  - pose proof (create_plot_no_request w df
                  (os_path.join output_dir "kenpom_ratings.html") year) as NC.
    destruct (create_plot w df _ year) as [tc [e|p]]; cbn [trace fst] in *;
      cbn [filter is_request]; rewrite !filter_app, NC; cbn; apply app_nil_r.
Qed.

Lemma fallback_is_task_year ctx :
  Dag.fallback_year (Dag.or_else (Dag.execution_date ctx) (Dag.data_interval_start ctx))
  = task_year ctx.
Proof.
  unfold task_year, Dag.fallback_year, Dag.or_else.
  now destruct (Dag.execution_date ctx), (Dag.data_interval_start ctx).
Qed.

Section TaskFacts.

Variable int : string -> option Z.

(** X16: a [KENPOM_YEAR] that cannot be used never fails the task: when the
    variable store cannot be reached, or the variable is unset or empty, or
    [int] rejects it, the task runs [main] for the year of the execution
    date, else of the start of the data interval, else for 2026. *)
Theorem unusable_year_falls_back (w : World) (file : string) (ctx : Dag.context) :
  (exists e, airflow w = Unreachable e)
  \/ (exists get, airflow w = Variables get
                  /\ (truthy (get "KENPOM_YEAR") = false
                      \/ int (format_str (get "KENPOM_YEAR")) = None)) ->
  Dag.run_kenpom_plot int w file ctx = run_with_year w file (task_year ctx).
Proof.
  intros H.
  assert (R : Dag.resolve_year int w
                (Dag.or_else (Dag.execution_date ctx) (Dag.data_interval_start ctx))
              = ret (task_year ctx)).
  { rewrite <- fallback_is_task_year. unfold Dag.resolve_year.
    destruct H as [[e ->]|[get [-> [H|H]]]]; [reflexivity| |].
    - now rewrite H.
    - rewrite H. now destruct (truthy _). }
  rewrite task_run, R. unfold ret, bind at 1. cbn [app].
  now destruct (run_with_year w file (task_year ctx)).
Qed.

(** X17: a usable [KENPOM_YEAR] wins over the dates of the context: the task
    runs [main] for the year the variable holds. *)
Theorem year_variable_overrides (w : World) (file : string) (ctx : Dag.context)
    (get : string -> option string) (s : string) (y : Z) :
  airflow w = Variables get ->
  get "KENPOM_YEAR" = Some s ->
  s <> "" ->
  int s = Some y ->
  Dag.run_kenpom_plot int w file ctx = run_with_year w file y.
Proof.
  intros Ha Hg Hs Hi. rewrite task_run. unfold Dag.resolve_year.
  rewrite Ha, Hg. cbn [truthy format_str].
  destruct (String.eqb_spec s ""); [contradiction|]. cbn [negb]. rewrite Hi.
  unfold ret, bind at 1. cbn [app].
  now destruct (run_with_year w file y).
Qed.

(** X18: the task always asks for a numbered season: it passes a year to
    [main], so a request it sends carries a decimal year in its address, and
    it sends at most one. *)
Theorem task_requests_numbered_season (w : World) (file : string) (ctx : Dag.context) :
  filter is_request (trace (Dag.run_kenpom_plot int w file ctx)) = []
  \/ exists y,
       filter is_request (trace (Dag.run_kenpom_plot int w file ctx))
       = [HttpGet (BASE_URL ^^ "?endpoint=ratings&y=" ^^ Str.of_Z y)
            (bearer (resolve_api_key w))].
Proof.
  rewrite task_run.
  destruct (Dag.resolve_year int w _) as [tr [e|y]] eqn:R.
  - left. unfold Dag.resolve_year in R.
    destruct (airflow w) as [| |get]; [injection R as <- _; reflexivity|discriminate|].
    destruct (truthy _); [destruct (int _)|]; discriminate.
  - assert (tr = []) as ->.
    { unfold Dag.resolve_year in R.
      destruct (airflow w) as [| |get]; [discriminate|now injection R|].
      destruct (truthy _); [destruct (int _)|]; now injection R. }
    rewrite trace_bind. cbn [outcome snd trace fst app].
    rewrite run_with_year_main, trace_bind. unfold perform.
    destruct (os_makedirs w _) eqn:Hdir; cbn [outcome snd trace fst];
      [left; reflexivity|].
    cbn [app filter is_request]. rewrite main_requests, Hdir, fetch_requests.
    destruct (truthy _); [right; now exists y | now left].
Qed.

(** X19: when the task returns, it returns the path of [kenpom_ratings.html] in
    the [output] directory next to the DAG file. *)
Theorem task_returns_document_path
    (w : World) (file : string) (ctx : Dag.context) (p : string) :
  outcome (Dag.run_kenpom_plot int w file ctx) = inr p ->
  p = os_path.join (os_path.join (os_path.dirname file) "output")
        "kenpom_ratings.html".
Proof.
  rewrite task_run, outcome_bind.
  destruct (outcome (Dag.resolve_year int w _)) as [e|y]; [discriminate|].
  rewrite run_with_year_main, outcome_bind.
  destruct (outcome (perform _ _)) as [e|[]]; [discriminate|].
  destruct (outcome (main w (Some y) _)) as [e|q] eqn:M; [discriminate|].
  apply main_returns_path in M as ->. cbn. now intros [= <-].
Qed.

End TaskFacts.

Lemma unusable_year_falls_back_witness :
  Dag.run_kenpom_plot Sample2.decimal
    (with_airflow Sample.world (Variables Sample2.bad_year_store))
    "dags/kenpom_plot_dag.py" Sample2.ctx
  = run_with_year (with_airflow Sample.world (Variables Sample2.bad_year_store))
      "dags/kenpom_plot_dag.py" 2027.
Proof.
  apply (unusable_year_falls_back Sample2.decimal
           (with_airflow Sample.world (Variables Sample2.bad_year_store))
           "dags/kenpom_plot_dag.py" Sample2.ctx).
  right. exists Sample2.bad_year_store. split; [reflexivity|]. right. reflexivity.
Defined.

Lemma year_variable_overrides_witness :
  Dag.run_kenpom_plot Sample2.decimal Sample2.scheduled "dags/kenpom_plot_dag.py"
    Sample2.ctx
  = run_with_year Sample2.scheduled "dags/kenpom_plot_dag.py" 2024.
Proof.
  assert (H : "2024" <> "") by discriminate.
  exact (year_variable_overrides Sample2.decimal Sample2.scheduled
           "dags/kenpom_plot_dag.py" Sample2.ctx Sample2.store "2024" 2024
           eq_refl eq_refl H eq_refl).
Defined.

Lemma task_returns_document_path_witness :
  outcome (Dag.run_kenpom_plot Sample2.decimal Sample2.scheduled
             "dags/kenpom_plot_dag.py" Sample2.ctx)
  = inr "dags/output/kenpom_ratings.html"
  /\ "dags/output/kenpom_ratings.html"
     = os_path.join (os_path.join (os_path.dirname "dags/kenpom_plot_dag.py") "output")
         "kenpom_ratings.html".
Proof.
  assert (H : outcome (Dag.run_kenpom_plot Sample2.decimal Sample2.scheduled
                         "dags/kenpom_plot_dag.py" Sample2.ctx)
              = inr "dags/output/kenpom_ratings.html") by reflexivity.
  split; [exact H|].
  exact (task_returns_document_path Sample2.decimal Sample2.scheduled
           "dags/kenpom_plot_dag.py" Sample2.ctx _ H).
Defined.

(** ** The module run as a script *)

(** X20: run as a script, the module calls [main] without a year: whenever
    it gets to send its request, the address asks for the season [None], and
    the chart it draws is titled with the current date. *)
Theorem script_asks_for_season_None (w : World) :
  os_makedirs w "output" = None ->
  truthy (resolve_api_key w) = true ->
  filter is_request (trace (script w))
  = [HttpGet "https://kenpom.com/api.php?endpoint=ratings&y=None"
       (bearer (resolve_api_key w))]
  /\ forall df, chart_title (plot_figure w df None)
                = Some (title_text (strftime_now w "%B %d, %Y")).
Proof.
  intros Hdir Hkey. split; [|reflexivity].
  unfold script. now rewrite main_requests, Hdir, fetch_requests, Hkey.
Qed.

Lemma script_asks_for_season_None_witness :
  filter is_request (trace (script Sample.world))
  = [HttpGet "https://kenpom.com/api.php?endpoint=ratings&y=None"
       [("Authorization", "Bearer secret")]].
Proof.
  exact (proj1 (script_asks_for_season_None Sample.world eq_refl eq_refl)).
Defined.
